(** * BrainMatch analytics integration: a shallow embedding

    The script [analytics-integration.js] replaces eight operations of the
    host page (seven at load time, [alert] at every [startTimer] call) by
    wrappers that talk to an analytics sink and then delegate to the
    operation they replace.  The embedding below follows the script
    statement by statement:

    - the three module variables ([levelStartTime], [currentLevelId],
      [taskCounter]) and the binding of [window.alert] are fields of
      [World];
    - [try { ... } catch (error) { console.error(...) }] is [tryCatch]: the
      state reached when the exception was raised is kept;
    - the sink ([analytics]), the clock ([Date.now]) and the operations
      captured as [originalXxx] belong to the environment [Env] and are
      arbitrary: a sink call may throw, an original may be [undefined];
    - everything observable (sink calls, console output, calls of the
      originals, rebinding of [window] properties) is appended to a
      chronological [trace]. *)

From Stdlib Require Import ZArith List String Bool Lia DecimalString DecimalNat FinFun.
Import ListNotations.
Local Open Scope list_scope.
Local Open Scope string_scope.

(** ** JavaScript values read and produced by the hooks *)

(** Numbers are the integers the host stores (level index, turn count,
    XP, timestamps); they print in plain decimal. *)
Inductive value : Type :=
| VUndefined
| VNull
| VBool (b : bool)
| VNum (n : Z)
| VStr (s : string).

Inductive exn : Type :=
| TypeError (what : string)
| Thrown (v : value).

Inductive completion (A : Type) : Type :=
| Normal (a : A)
| Abrupt (e : exn).
Arguments Normal {A} a.
Arguments Abrupt {A} e.

Definition decimalZ (n : Z) : string := NilZero.string_of_int (Z.to_int n).
Definition decimalNat (n : nat) : string := NilEmpty.string_of_uint (Nat.to_uint n).

(** [`${v}`]: the string a template literal inserts for [v]. *)
Definition display (v : value) : string :=
  match v with
  | VUndefined => "undefined"
  | VNull => "null"
  | VBool true => "true"
  | VBool false => "false"
  | VNum n => decimalZ n
  | VStr s => s
  end.

(** [`${x}`] for a variable holding [null] or a string. *)
Definition displayOpt (o : option string) : string :=
  match o with
  | None => "null"
  | Some s => s
  end.

(** [v.toString()]: a property read on [undefined] or [null] throws. *)
Definition toStringMethod (v : value) : completion string :=
  match v with
  | VUndefined => Abrupt (TypeError "Cannot read properties of undefined (reading 'toString')")
  | VNull => Abrupt (TypeError "Cannot read properties of null (reading 'toString')")
  | _ => Normal (display v)
  end.

(** [hay.includes(needle)] on strings. *)
Fixpoint includes (needle hay : string) : bool :=
  prefix needle hay ||
  match hay with
  | EmptyString => false
  | String _ rest => includes needle rest
  end.

(** [message.includes("Time's Up")]: only a string has the method. *)
Definition messageIncludes (message : value) (needle : string) : completion bool :=
  match message with
  | VStr s => Normal (includes needle s)
  | VUndefined => Abrupt (TypeError "Cannot read properties of undefined (reading 'includes')")
  | VNull => Abrupt (TypeError "Cannot read properties of null (reading 'includes')")
  | _ => Abrupt (TypeError "message.includes is not a function")
  end.

(** [x || 'unknown'] on a [dataset] entry, which is a string or
    [undefined]: the empty string is falsy. *)
Definition orUnknown (o : option string) : string :=
  match o with
  | None => "unknown"
  | Some EmptyString => "unknown"
  | Some s => s
  end.

(** [Date.now() - levelStartTime]: [null] converts to [0]. *)
Definition minusStart (now : Z) (levelStartTime : option Z) : Z :=
  match levelStartTime with
  | None => (now - 0)%Z
  | Some t => (now - t)%Z
  end.

(** ** Host state the hooks read *)

(** [card.dataset]: the entries [value] and [match]. *)
Record Dataset : Type := mkDataset {
  ds_value : option string;
  ds_match : option string
}.

(** A flipped card: [None] is a value without a [dataset], on which
    [card.dataset.value] throws. *)
Definition Card : Type := option Dataset.

Record GameState : Type := mkGameState {
  flippedCards : option (list Card);   (* [None]: a falsy value *)
  currentCampaignLevel : value;
  turns : value
}.

(** [window]: [gameState] and the optional calculators
    ([typeof window.f === 'function'] is [Some]). *)
Record HostState : Type := mkHostState {
  gameState : option GameState;
  calculateXP : option (value -> value -> completion value);
  calculateCampaignStars : option (value -> value -> completion value);
  calculateReflexStars : option (value -> completion value)
}.

(** ** Hooked operations, sink calls and the trace *)

Inductive Op : Type :=
| OpStartGame
| OpStartReflexMode
| OpHandleCorrectMatch
| OpHandleIncorrectMatch
| OpHandleCampaignWin
| OpHandleReflexModeEnd
| OpStartTimer
| OpAlert.

Definition Op_eqb (a b : Op) : bool :=
  match a, b with
  | OpStartGame, OpStartGame
  | OpStartReflexMode, OpStartReflexMode
  | OpHandleCorrectMatch, OpHandleCorrectMatch
  | OpHandleIncorrectMatch, OpHandleIncorrectMatch
  | OpHandleCampaignWin, OpHandleCampaignWin
  | OpHandleReflexModeEnd, OpHandleReflexModeEnd
  | OpStartTimer, OpStartTimer
  | OpAlert, OpAlert => true
  | _, _ => false
  end.

(** The methods of [analytics] the script calls. *)
Inductive SinkCall : Type :=
| Initialize (appName sessionId : string)
| StartLevel (levelId : option string)
| RecordTask (levelId : option string) (taskId label expected actual : string)
             (timeTakenMs xpEarned : Z)
| EndLevel (levelId : option string) (success : bool) (durationMs : Z) (xp : value)
| AddRawMetric (key val : string)
| SubmitReport.

Inductive Event : Type :=
| EvSink (c : SinkCall)                             (* analytics.m(...) *)
| EvLog (line : string)                             (* console.log *)
| EvError (hook : string) (e : exn)                 (* console.error in a catch *)
| EvInstall (op : Op)                               (* window.op = function ... *)
| EvOriginal (op : Op) (this : value) (args : list value). (* original.call(this, ...) *)

Record World : Type := mkWorld {
  levelStartTime : option Z;        (* [null] or a timestamp *)
  currentLevelId : option string;   (* [null] or a string *)
  taskCounter : nat;
  alertHooks : nat;                 (* wrappers stacked on the host's [alert] *)
  clockReads : nat;                 (* calls of [Date.now] so far *)
  host : HostState;
  trace : list Event
}.

(** What the script does not define.  An original is opaque host code:
    it returns or throws and may change the host state; a hooked
    operation it calls in turn counts as a later call of the run. *)
Record Env : Type := mkEnv {
  now : nat -> Z;                                  (* k-th result of [Date.now()] *)
  randomSuffix : string;                           (* [Math.random().toString(36).substr(2, 9)] *)
  sink : list Event -> SinkCall -> option exn;     (* [Some e]: the call throws [e] *)
  original : Op -> option (value -> list value -> HostState -> completion value * HostState)
    (* [window.op] when the script captured it; [None] is [undefined] *)
}.

(** ** The state-and-exception monad of the script *)

Definition M (A : Type) : Type := World -> completion A * World.

Definition ret {A} (a : A) : M A := fun w => (Normal a, w).

Definition bind {A B} (m : M A) (k : A -> M B) : M B :=
  fun w =>
    match m w with
    | (Normal a, w') => k a w'
    | (Abrupt e, w') => (Abrupt e, w')
    end.

Declare Scope hook_scope.
Delimit Scope hook_scope with hook.
Notation "x <- m ;; k" := (bind m (fun x => k))
  (at level 61, m at next level, right associativity) : hook_scope.
Notation "m ;; k" := (bind m (fun _ => k))
  (at level 61, right associativity) : hook_scope.
Local Open Scope hook_scope.

Definition lift {A} (c : completion A) : M A := fun w => (c, w).

Definition emit (e : Event) : M unit :=
  fun w => (Normal tt,
            mkWorld (levelStartTime w) (currentLevelId w) (taskCounter w)
                    (alertHooks w) (clockReads w) (host w) (trace w ++ [e])%list).

Definition log (line : string) : M unit := emit (EvLog line).

Definition getLevelStartTime : M (option Z) := fun w => (Normal (levelStartTime w), w).
Definition getCurrentLevelId : M (option string) := fun w => (Normal (currentLevelId w), w).
Definition getTaskCounter : M nat := fun w => (Normal (taskCounter w), w).
Definition getHost : M HostState := fun w => (Normal (host w), w).

Definition setLevelStartTime (t : option Z) : M unit :=
  fun w => (Normal tt,
            mkWorld t (currentLevelId w) (taskCounter w)
                    (alertHooks w) (clockReads w) (host w) (trace w)).

Definition setCurrentLevelId (id : option string) : M unit :=
  fun w => (Normal tt,
            mkWorld (levelStartTime w) id (taskCounter w)
                    (alertHooks w) (clockReads w) (host w) (trace w)).

Definition setTaskCounter (n : nat) : M unit :=
  fun w => (Normal tt,
            mkWorld (levelStartTime w) (currentLevelId w) n
                    (alertHooks w) (clockReads w) (host w) (trace w)).

(** [try { body } catch (error) { console.error('[Analytics] Error in <hook> hook:', error) }] *)
Definition tryCatch (hook : string) (body : M unit) : M unit :=
  fun w =>
    match body w with
    | (Normal _, w') => (Normal tt, w')
    | (Abrupt e, w') => emit (EvError hook e) w'
    end.

(** [window.gameState.<field>]: throws when [window.gameState] is
    [undefined]. *)
Definition readGameState (field : string) : M GameState :=
  h <- getHost ;;
  match gameState h with
  | Some gs => ret gs
  | None => lift (Abrupt (TypeError
              ("Cannot read properties of undefined (reading '" ++ field ++ "')")))
  end.

(** [card.dataset.<entry>]: throws when the card has no [dataset]. *)
Definition readDataset (c : Card) (entry : string) : M Dataset :=
  match c with
  | Some d => ret d
  | None => lift (Abrupt (TypeError
              ("Cannot read properties of undefined (reading '" ++ entry ++ "')")))
  end.

Section Hooks.

Variable E : Env.

(** [Date.now()] *)
Definition dateNow : M Z :=
  fun w => (Normal (now E (clockReads w)),
            mkWorld (levelStartTime w) (currentLevelId w) (taskCounter w)
                    (alertHooks w) (S (clockReads w)) (host w) (trace w)).

(** [analytics.m(...)]: the call is made, then the sink may throw. *)
Definition sinkCall (c : SinkCall) : M unit :=
  fun w =>
    let w' := mkWorld (levelStartTime w) (currentLevelId w) (taskCounter w)
                      (alertHooks w) (clockReads w) (host w) (trace w ++ [EvSink c])%list in
    match sink E (trace w) c with
    | None => (Normal tt, w')
    | Some e => (Abrupt e, w')
    end.

(** [originalXxx.call(this, args...)]: outside every [try]. *)
Definition callOriginal (op : Op) (this : value) (args : list value) : M value :=
  fun w =>
    match original E op with
    | None => (Abrupt (TypeError "Cannot read properties of undefined (reading 'call')"), w)
    | Some f =>
        let (r, h') := f this args (host w) in
        (r, mkWorld (levelStartTime w) (currentLevelId w) (taskCounter w)
                    (alertHooks w) (clockReads w) h'
                    (trace w ++ [EvOriginal op this args])%list)
    end.

(** *** Level start *)

Definition startGameBody (level : value) : M unit :=
  setCurrentLevelId (Some ("campaign_level_" ++ display level)) ;;
  t <- dateNow ;;
  setLevelStartTime (Some t) ;;
  setTaskCounter 0 ;;
  id <- getCurrentLevelId ;;
  sinkCall (StartLevel id) ;;
  id' <- getCurrentLevelId ;;
  log ("[Analytics] Started Level: " ++ displayOpt id').

Definition startGame (this level : value) : M value :=
  tryCatch "startGame" (startGameBody level) ;;
  callOriginal OpStartGame this [level].

Definition startReflexModeBody : M unit :=
  setCurrentLevelId (Some "reflex_mode") ;;
  t <- dateNow ;;
  setLevelStartTime (Some t) ;;
  setTaskCounter 0 ;;
  id <- getCurrentLevelId ;;
  sinkCall (StartLevel id) ;;
  log "[Analytics] Started Reflex Mode".

Definition startReflexMode (this : value) : M value :=
  tryCatch "startReflexMode" startReflexModeBody ;;
  callOriginal OpStartReflexMode this [].

(** *** Match attempts *)

Definition taskId (n : nat) : string := "task_" ++ decimalNat n.

Definition handleCorrectMatchBody : M unit :=
  gs <- readGameState "flippedCards" ;;
  match flippedCards gs with
  | Some [card1; card2] =>
      d1 <- readDataset card1 "value" ;;
      let card1Value := orUnknown (ds_value d1) in
      d2 <- readDataset card2 "value" ;;
      let card2Value := orUnknown (ds_value d2) in
      n <- getTaskCounter ;;
      setTaskCounter (S n) ;;
      id <- getCurrentLevelId ;;
      n' <- getTaskCounter ;;
      sinkCall (RecordTask id (taskId n') ("Match: " ++ card1Value)
                           card1Value card2Value 0 0) ;;
      log ("[Analytics] Task Recorded - Correct Match: "
             ++ card1Value ++ " = " ++ card2Value)
  | _ => ret tt
  end.

Definition handleCorrectMatch (this : value) : M value :=
  tryCatch "handleCorrectMatch" handleCorrectMatchBody ;;
  callOriginal OpHandleCorrectMatch this [].

Definition handleIncorrectMatchBody : M unit :=
  gs <- readGameState "flippedCards" ;;
  match flippedCards gs with
  | Some [card1; card2] =>
      d1 <- readDataset card1 "value" ;;
      let card1Value := orUnknown (ds_value d1) in
      d2 <- readDataset card2 "value" ;;
      let card2Value := orUnknown (ds_value d2) in
      let expectedMatch := orUnknown (ds_match d1) in
      n <- getTaskCounter ;;
      setTaskCounter (S n) ;;
      id <- getCurrentLevelId ;;
      n' <- getTaskCounter ;;
      sinkCall (RecordTask id (taskId n') ("Match: " ++ card1Value)
                           expectedMatch card2Value 0 0) ;;
      log ("[Analytics] Task Recorded - Incorrect Match: " ++ card1Value
             ++ ", Expected: " ++ expectedMatch ++ ", Got: " ++ card2Value)
  | _ => ret tt
  end.

Definition handleIncorrectMatch (this : value) : M value :=
  tryCatch "handleIncorrectMatch" handleIncorrectMatchBody ;;
  callOriginal OpHandleIncorrectMatch this [].

(** *** Level outcomes *)

Definition handleCampaignWinBody : M unit :=
  gs <- readGameState "currentCampaignLevel" ;;
  let level := currentCampaignLevel gs in
  gs' <- readGameState "turns" ;;
  let turns := turns gs' in
  t <- dateNow ;;
  start <- getLevelStartTime ;;
  let duration := minusStart t start in
  h <- getHost ;;
  xp <- match calculateXP h with
        | Some f => lift (f level turns)
        | None => ret (VNum 0)
        end ;;
  h' <- getHost ;;
  stars <- match calculateCampaignStars h' with
           | Some f => lift (f level turns)
           | None => ret (VNum 0)
           end ;;
  id <- getCurrentLevelId ;;
  sinkCall (EndLevel id true duration xp) ;;
  sLevel <- lift (toStringMethod level) ;;
  sinkCall (AddRawMetric "level" sLevel) ;;
  sTurns <- lift (toStringMethod turns) ;;
  sinkCall (AddRawMetric "turns" sTurns) ;;
  sXp <- lift (toStringMethod xp) ;;
  sinkCall (AddRawMetric "xp_earned" sXp) ;;
  sStars <- lift (toStringMethod stars) ;;
  sinkCall (AddRawMetric "stars" sStars) ;;
  sinkCall (AddRawMetric "mode" "campaign") ;;
  sinkCall SubmitReport ;;
  id' <- getCurrentLevelId ;;
  log ("[Analytics] Completed Level: " ++ displayOpt id'
         ++ ", Success: true, Time: " ++ decimalZ duration
         ++ "ms, XP: " ++ display xp ++ ", Stars: " ++ display stars) ;;
  log "[Analytics] Report submitted".

Definition handleCampaignWin (this : value) : M value :=
  tryCatch "handleCampaignWin" handleCampaignWinBody ;;
  callOriginal OpHandleCampaignWin this [].

Definition handleReflexModeEndBody : M unit :=
  gs <- readGameState "turns" ;;
  let turns := turns gs in
  t <- dateNow ;;
  start <- getLevelStartTime ;;
  let duration := minusStart t start in
  h <- getHost ;;
  stars <- match calculateReflexStars h with
           | Some f => lift (f turns)
           | None => ret (VNum 0)
           end ;;
  id <- getCurrentLevelId ;;
  sinkCall (EndLevel id true duration (VNum 0)) ;;
  sTurns <- lift (toStringMethod turns) ;;
  sinkCall (AddRawMetric "moves" sTurns) ;;
  sStars <- lift (toStringMethod stars) ;;
  sinkCall (AddRawMetric "stars" sStars) ;;
  sinkCall (AddRawMetric "mode" "reflex") ;;
  sinkCall SubmitReport ;;
  log ("[Analytics] Completed Reflex Mode: Success: true, Time: "
         ++ decimalZ duration ++ "ms, Moves: " ++ display turns
         ++ ", Stars: " ++ display stars) ;;
  log "[Analytics] Report submitted".

Definition handleReflexModeEnd (this : value) : M value :=
  tryCatch "handleReflexModeEnd" handleReflexModeEndBody ;;
  callOriginal OpHandleReflexModeEnd this [].

(** *** Timer and timeout notification *)

(** The [try] block of one [window.alert] wrapper. *)
Definition alertBody (message : value) : M unit :=
  timeUp <- lift (messageIncludes message "Time's Up") ;;
  if timeUp then
    t <- dateNow ;;
    start <- getLevelStartTime ;;
    let timeTaken := minusStart t start in
    id <- getCurrentLevelId ;;
    sinkCall (EndLevel id false timeTaken (VNum 0)) ;;
    sinkCall (AddRawMetric "reason" "timeout") ;;
    gs <- readGameState "turns" ;;
    sTurns <- lift (toStringMethod (turns gs)) ;;
    sinkCall (AddRawMetric "turns" sTurns) ;;
    sinkCall SubmitReport ;;
    id' <- getCurrentLevelId ;;
    log ("[Analytics] Level Failed: " ++ displayOpt id' ++ ", Reason: Timeout") ;;
    log "[Analytics] Report submitted"
  else ret tt.

(** [window.alert] after [n] executions of the assignment in
    [startTimer]: each wrapper closes over the binding it replaced, the
    innermost over the host's own [alert]. *)
Fixpoint alertLayers (n : nat) (this message : value) : M value :=
  match n with
  | O => callOriginal OpAlert this [message]
  | S k =>
      tryCatch "alert" (alertBody message) ;;
      alertLayers k this message
  end.

(** A call of [window.alert(message)] by the host. *)
Definition alert (this message : value) : M value :=
  fun w => alertLayers (alertHooks w) this message w.

(** [const originalAlert = window.alert; window.alert = function (message) ...] *)
Definition installAlertHook : M unit :=
  fun w => (Normal tt,
            mkWorld (levelStartTime w) (currentLevelId w) (taskCounter w)
                    (S (alertHooks w)) (clockReads w) (host w)
                    (trace w ++ [EvInstall OpAlert])%list).

Definition startTimer (this duration : value) : M value :=
  result <- callOriginal OpStartTimer this [duration] ;;
  tryCatch "startTimer" installAlertHook ;;
  ret result.

(** *** Loading the script *)

Definition loadedHooks : list Op :=
  [OpStartGame; OpStartReflexMode; OpHandleCorrectMatch; OpHandleIncorrectMatch;
   OpHandleCampaignWin; OpHandleReflexModeEnd; OpStartTimer].

Fixpoint installAll (ops : list Op) : M unit :=
  match ops with
  | [] => ret tt
  | op :: rest => emit (EvInstall op) ;; installAll rest
  end.

(** The top level of the script ([new AnalyticsManager()] is the sink
    of the environment).  Reading an absent [window.op] yields
    [undefined] and the assignment of the wrapper follows in every case. *)
Definition attach : M unit :=
  log "[Analytics] Loading integration script..." ;;
  t <- dateNow ;;
  let sessionID := "session_" ++ decimalZ t ++ "_" ++ randomSuffix E in
  sinkCall (Initialize "BrainMatch" sessionID) ;;
  log ("[Analytics] Initialized with Session ID: " ++ sessionID) ;;
  setLevelStartTime None ;;
  setCurrentLevelId None ;;
  setTaskCounter 0 ;;
  installAll loadedHooks ;;
  log "[Analytics] Integration loaded successfully" ;;
  log "[Analytics] Tracking enabled for:" ;;
  log "  - Campaign levels (start, win, fail)" ;;
  log "  - Reflex mode (start, complete)" ;;
  log "  - Card matches (correct and incorrect)" ;;
  log "  - Performance metrics (time, turns, XP, stars)".

(** ** Calls made by the host *)

(** A call of a hooked operation with the parameters its wrapper
    declares. *)
Inductive Call : Type :=
| CallStartGame (level : value)
| CallStartReflexMode
| CallHandleCorrectMatch
| CallHandleIncorrectMatch
| CallHandleCampaignWin
| CallHandleReflexModeEnd
| CallStartTimer (duration : value)
| CallAlert (message : value).

Definition opOf (c : Call) : Op :=
  match c with
  | CallStartGame _ => OpStartGame
  | CallStartReflexMode => OpStartReflexMode
  | CallHandleCorrectMatch => OpHandleCorrectMatch
  | CallHandleIncorrectMatch => OpHandleIncorrectMatch
  | CallHandleCampaignWin => OpHandleCampaignWin
  | CallHandleReflexModeEnd => OpHandleReflexModeEnd
  | CallStartTimer _ => OpStartTimer
  | CallAlert _ => OpAlert
  end.

Definition argsOf (c : Call) : list value :=
  match c with
  | CallStartGame level => [level]
  | CallStartTimer duration => [duration]
  | CallAlert message => [message]
  | _ => []
  end.

(** The wrapped operation bound to [window] after loading. *)
Definition invoke (this : value) (c : Call) : M value :=
  match c with
  | CallStartGame level => startGame this level
  | CallStartReflexMode => startReflexMode this
  | CallHandleCorrectMatch => handleCorrectMatch this
  | CallHandleIncorrectMatch => handleIncorrectMatch this
  | CallHandleCampaignWin => handleCampaignWin this
  | CallHandleReflexModeEnd => handleReflexModeEnd this
  | CallStartTimer duration => startTimer this duration
  | CallAlert message => alert this message
  end.

(** What happens on the page between two hooked calls. *)
Inductive HostEvent : Type :=
| Invoke (this : value) (c : Call)
| HostStep (f : HostState -> HostState).   (* unhooked host code, e.g. a card flip *)

Definition step (ev : HostEvent) (w : World) : World :=
  match ev with
  | Invoke this c => snd (invoke this c w)
  | HostStep f =>
      mkWorld (levelStartTime w) (currentLevelId w) (taskCounter w)
              (alertHooks w) (clockReads w) (f (host w)) (trace w)
  end.

Fixpoint run (evs : list HostEvent) (w : World) : World :=
  match evs with
  | [] => w
  | ev :: rest => run rest (step ev w)
  end.

End Hooks.

(** The page before the script is loaded. *)
Definition freshWorld (h : HostState) : World :=
  mkWorld None None 0 0 0 h [].

(** ** Reading the trace *)

Definition isSubmit (e : Event) : bool :=
  match e with
  | EvSink SubmitReport => true
  | _ => false
  end.

Definition isOriginal (e : Event) : bool :=
  match e with
  | EvOriginal _ _ _ => true
  | _ => false
  end.

(** Number of [analytics.submitReport()] calls made. *)
Definition submissions (t : list Event) : nat := List.length (filter isSubmit t).

(** Number of calls of captured originals. *)
Definition originalCalls (t : list Event) : nat := List.length (filter isOriginal t).

(** The part of [t'] added after [t] (both chronological). *)
Definition since (t t' : list Event) : list Event := skipn (List.length t) t'.

(** ** Instrumentation events and the events of one call *)

(** Events a [try] block or its [catch] may add: anything but the call of
    an original, and a task record only with both numeric fields [0]. *)
Definition instrEvent (e : Event) : bool :=
  match e with
  | EvOriginal _ _ _ => false
  | EvSink (RecordTask _ _ _ _ _ t x) => (t =? 0)%Z && (x =? 0)%Z
  | _ => true
  end.

(** [instr m]: [m] adds instrumentation events only and leaves the host
    state and the binding of [window.alert] alone. *)
Definition instr {A} (m : M A) : Prop :=
  forall w, exists evs,
    trace (snd (m w)) = (trace w ++ evs)%list /\
    forallb instrEvent evs = true /\
    host (snd (m w)) = host w /\
    alertHooks (snd (m w)) = alertHooks w.

Definition isStartTimer (c : Call) : bool :=
  match c with
  | CallStartTimer _ => true
  | _ => false
  end.

Definition absentOriginal : exn :=
  TypeError "Cannot read properties of undefined (reading 'call')".

(** Events added by the call [c] made in world [w]. *)
Definition emitted (E : Env) (this : value) (c : Call) (w : World) : list Event :=
  since (trace w) (trace (snd (invoke E this c w))).

(** ** Orderings of one call *)

(** Everything the call adds to the trace, the call of the original
    excepted, comes before that call. *)
Definition instrumentationFirst (E : Env) (this : value) (c : Call) (w : World) : Prop :=
  exists pre,
    emitted E this c w = (pre ++ [EvOriginal (opOf c) this (argsOf c)])%list /\
    forallb instrEvent pre = true.

(** ** Task records in a trace *)

(** The [analytics.recordTask(...)] calls of a trace, in order. *)
Definition taskRecords (t : list Event) : list SinkCall :=
  flat_map (fun e => match e with
                     | EvSink (RecordTask id tid label expected actual time xp) =>
                         [RecordTask id tid label expected actual time xp]
                     | _ => []
                     end) t.

(** Their [taskId] arguments. *)
Definition taskIds (t : list Event) : list string :=
  flat_map (fun e => match e with
                     | EvSink (RecordTask _ tid _ _ _ _ _) => [tid]
                     | _ => []
                     end) t.

Definition taskFieldsZero (e : Event) : bool :=
  match e with
  | EvSink (RecordTask _ _ _ _ _ time xp) => (time =? 0)%Z && (xp =? 0)%Z
  | _ => true
  end.

Definition isStartCall (c : Call) : bool :=
  match c with
  | CallStartGame _ | CallStartReflexMode => true
  | _ => false
  end.

Definition isStartEvent (ev : HostEvent) : bool :=
  match ev with
  | Invoke _ c => isStartCall c
  | HostStep _ => false
  end.

(** The identifier a level-start call stores in [currentLevelId]. *)
Definition levelIdOf (c : Call) : option string :=
  match c with
  | CallStartGame level => Some ("campaign_level_" ++ display level)
  | CallStartReflexMode => Some "reflex_mode"
  | _ => None
  end.

(** No level is started during [evs]. *)
Definition noStart (evs : list HostEvent) : bool :=
  forallb (fun ev => negb (isStartEvent ev)) evs.

(** ** Level outcomes in a trace *)

(** The [analytics.endLevel(...)] calls of a trace, in order. *)
Definition endLevels (t : list Event) : list SinkCall :=
  flat_map (fun e => match e with
                     | EvSink (EndLevel id success duration xp) =>
                         [EndLevel id success duration xp]
                     | _ => []
                     end) t.

(** No [catch] block of the script ran. *)
Definition noErrorLogged (t : list Event) : bool :=
  forallb (fun e => match e with
                    | EvError _ _ => false
                    | _ => true
                    end) t.

(** [message.includes("Time's Up")] holds. *)
Definition isTimeoutMessage (message : value) : bool :=
  match message with
  | VStr s => includes "Time's Up" s
  | _ => false
  end.

(** A call that signals a level outcome: a campaign win, the end of
    reflex mode, or a timeout notification going through one [alert]
    wrapper. *)
Definition isOutcome (c : Call) (w : World) : bool :=
  match c with
  | CallHandleCampaignWin | CallHandleReflexModeEnd => true
  | CallAlert message => isTimeoutMessage message && Nat.eqb (alertHooks w) 1
  | _ => false
  end.


(** ** Sink calls, error reports and console lines of a trace *)

(** All calls made to [analytics], in order. *)
Definition sinkCalls (t : list Event) : list SinkCall :=
  flat_map (fun e => match e with
                     | EvSink c => [c]
                     | _ => []
                     end) t.

(** The hook names under which [console.error] was called, in order. *)
Definition errorHooks (t : list Event) : list string :=
  flat_map (fun e => match e with
                     | EvError hook _ => [hook]
                     | _ => []
                     end) t.

(** The lines written with [console.log], in order. *)
Definition consoleLines (t : list Event) : list string :=
  flat_map (fun e => match e with
                     | EvLog line => [line]
                     | _ => []
                     end) t.

(** The operations rebound on [window], in order. *)
Definition installs (t : list Event) : list Op :=
  flat_map (fun e => match e with
                     | EvInstall op => [op]
                     | _ => []
                     end) t.

(** The name a wrapper gives in its [console.error] call. *)
Definition hookName (c : Call) : string :=
  match c with
  | CallStartGame _ => "startGame"
  | CallStartReflexMode => "startReflexMode"
  | CallHandleCorrectMatch => "handleCorrectMatch"
  | CallHandleIncorrectMatch => "handleIncorrectMatch"
  | CallHandleCampaignWin => "handleCampaignWin"
  | CallHandleReflexModeEnd => "handleReflexModeEnd"
  | CallStartTimer _ => "startTimer"
  | CallAlert _ => "alert"
  end.

Definition isMatchCall (c : Call) : bool :=
  match c with
  | CallHandleCorrectMatch | CallHandleIncorrectMatch => true
  | _ => false
  end.

(** A call that ends a level or shows a notification. *)
Definition isEndCall (c : Call) : bool :=
  match c with
  | CallHandleCampaignWin | CallHandleReflexModeEnd | CallAlert _ => true
  | _ => false
  end.

(** The identifier computed at load time. *)
Definition sessionID (E : Env) : string :=
  "session_" ++ decimalZ (now E 0) ++ "_" ++ randomSuffix E.

(** How many [catch] blocks one call can reach. *)
Definition tryBlocks (c : Call) (w : World) : nat :=
  match c with
  | CallAlert _ => alertHooks w
  | CallStartTimer _ => 0
  | _ => 1
  end.

(** The [levelId] arguments of the [recordTask] calls of a trace. *)
Definition recordLevels (t : list Event) : list (option string) :=
  flat_map (fun e => match e with
                     | EvSink (RecordTask id _ _ _ _ _ _) => [id]
                     | _ => []
                     end) t.

(** No timer is started during [evs]. *)
Definition noTimerStart (evs : list HostEvent) : bool :=
  forallb (fun ev => match ev with
                     | Invoke _ c => negb (isStartTimer c)
                     | HostStep _ => true
                     end) evs.

(** The wrappers one call adds to [window.alert]. *)
Definition wrappersAdded (E : Env) (this : value) (c : Call) (w : World) : nat :=
  match c with
  | CallStartTimer duration =>
      match original E OpStartTimer with
      | Some f =>
          match fst (f this [duration] (host w)) with
          | Normal _ => 1
          | Abrupt _ => 0
          end
      | None => 0
      end
  | _ => 0
  end.

(** ** Outcome signals, start times and error reports *)




(** The [console.error] calls of a trace: hook name and exception. *)
Definition errorReports (t : list Event) : list (string * exn) :=
  flat_map (fun e => match e with
                     | EvError hook e => [(hook, e)]
                     | _ => []
                     end) t.

(** The [try] block of the wrapper a call enters. *)
Definition tryBody (E : Env) (c : Call) : M unit :=
  match c with
  | CallStartGame level => startGameBody E level
  | CallStartReflexMode => startReflexModeBody E
  | CallHandleCorrectMatch => handleCorrectMatchBody E
  | CallHandleIncorrectMatch => handleIncorrectMatchBody E
  | CallHandleCampaignWin => handleCampaignWinBody E
  | CallHandleReflexModeEnd => handleReflexModeEndBody E
  | CallStartTimer _ => installAlertHook
  | CallAlert message => alertBody E message
  end.

(** The call runs exactly one [try] block, and runs it first. *)
Definition singleTry (c : Call) (w : World) : bool :=
  match c with
  | CallAlert _ => Nat.eqb (alertHooks w) 1
  | CallStartTimer _ => false
  | _ => true
  end.

(** ** Sample pages and scenarios *)

Definition sampleClock (k : nat) : Z := (1000 + 500 * Z.of_nat k)%Z.

(** A host operation that returns [r] and leaves the page alone. *)
Definition returns (r : value)
  : value -> list value -> HostState -> completion value * HostState :=
  fun _ _ h => (Normal r, h).

Definition quietSink : list Event -> SinkCall -> option exn := fun _ _ => None.

Definition brokenSink : list Event -> SinkCall -> option exn :=
  fun _ _ => Some (Thrown (VStr "sink unavailable")).

(** Every hooked operation exists and returns [7]. *)
Definition samplePage : Env :=
  mkEnv sampleClock "k3x9q0zpf" quietSink (fun _ => Some (returns (VNum 7))).

(** The same page with a sink whose every method throws. *)
Definition brokenSinkPage : Env :=
  mkEnv sampleClock "k3x9q0zpf" brokenSink (fun _ => Some (returns (VNum 7))).

(** A page without the optional reflex mode. *)
Definition noReflexPage : Env :=
  mkEnv sampleClock "k3x9q0zpf" quietSink
        (fun op => if Op_eqb op OpStartReflexMode then None
                   else Some (returns (VNum 7))).

Definition card (v m : option string) : Card := Some (mkDataset v m).

(** Level 3, twelve turns, the given cards flipped, and a host XP
    calculator that answers [50]. *)
Definition sampleHost (cards : list Card) : HostState :=
  mkHostState (Some (mkGameState (Some cards) (VNum 3) (VNum 12)))
              (Some (fun _ _ => Normal (VNum 50))) None None.

(** A page on which [window.gameState] is not defined. *)
Definition bareHost : HostState := mkHostState None None None None.

(** Two flipped cards showing [A] and [B], the first one declaring [A]
    as its match. *)
Definition cardsAB : list Card :=
  [card (Some "A") (Some "A"); card (Some "B") (Some "A")].

(** Level 3 is started, then one match is resolved as correct and one as
    incorrect. *)
Definition sampleMatches : list HostEvent :=
  [Invoke VUndefined (CallStartGame (VNum 3));
   Invoke VUndefined CallHandleCorrectMatch;
   Invoke VUndefined CallHandleIncorrectMatch].

(** Two flipped cards both showing [A]. *)
Definition cardsAA : list Card :=
  [card (Some "A") (Some "A"); card (Some "A") (Some "A")].

(** A world in which level 3 is running with [n] tasks recorded. *)
Definition playing (cards : list Card) (n : nat) : World :=
  mkWorld (Some 1000%Z) (Some "campaign_level_3") n 0 1 (sampleHost cards) [].

(** Level 1 is started and two matches are recorded; level 2 is started
    without level 1 having ended. *)
Definition startL1ThenL2 : list HostEvent :=
  [Invoke VUndefined (CallStartGame (VNum 1));
   Invoke VUndefined CallHandleCorrectMatch;
   Invoke VUndefined CallHandleIncorrectMatch].

(** Play after the start of level 2: a host step, then two matches. *)
Definition playL2 : list HostEvent :=
  [HostStep (fun h => h);
   Invoke VUndefined CallHandleIncorrectMatch;
   Invoke VUndefined CallHandleCorrectMatch].

(** The win signal arrives twice. *)
Definition winTwice : list HostEvent :=
  [Invoke VUndefined CallHandleCampaignWin; Invoke VUndefined CallHandleCampaignWin].

(** Two timed levels have been started. *)
Definition twoTimers : list HostEvent :=
  [Invoke VUndefined (CallStartTimer (VNum 60));
   Invoke VUndefined (CallStartTimer (VNum 60))].

(** Level 3 on a page whose XP calculator throws. *)
Definition failingXpHost : HostState :=
  mkHostState (Some (mkGameState (Some cardsAB) (VNum 3) (VNum 12)))
              (Some (fun _ _ => Abrupt (Thrown (VStr "no XP table")))) None None.

(** * Properties *)

(** ** The trace only grows *)

Lemma since_app (t evs : list Event) : since t (t ++ evs)%list = evs.
Proof.
  unfold since. induction t as [|e t IH]; simpl; auto.
Qed.

Lemma since_self (t : list Event) : since t t = [].
Proof.
  rewrite <- (app_nil_r t) at 2. apply since_app.
Qed.

Lemma submissions_app (t u : list Event) :
  submissions (t ++ u)%list = submissions t + submissions u.
Proof.
  unfold submissions. rewrite filter_app, length_app. reflexivity.
Qed.

Lemma originalCalls_app (t u : list Event) :
  originalCalls (t ++ u)%list = originalCalls t + originalCalls u.
Proof.
  unfold originalCalls. rewrite filter_app, length_app. reflexivity.
Qed.

(** ** What a [try] block of the script can do *)

Lemma instrEvent_not_original (evs : list Event) :
  forallb instrEvent evs = true -> originalCalls evs = 0.
Proof.
  induction evs as [|e evs IH]; simpl; intros H; auto.
  apply andb_prop in H as [He Hr]. unfold originalCalls in *. simpl.
  destruct e; simpl in *; try discriminate; auto.
Qed.

Create HintDb instr.

Section InstrRules.

Variable E : Env.

Lemma instr_silent {A} (m : M A) :
  (forall w, trace (snd (m w)) = trace w /\ host (snd (m w)) = host w /\
             alertHooks (snd (m w)) = alertHooks w) ->
  instr m.
Proof.
  intros H w. exists []. destruct (H w) as (Ht & Hh & Ha).
  rewrite app_nil_r. auto.
Qed.

Lemma instr_ret {A} (a : A) : instr (ret a).
Proof. apply instr_silent; cbn; auto. Qed.

Lemma instr_lift {A} (c : completion A) : instr (lift c).
Proof. apply instr_silent; cbn; auto. Qed.

Lemma instr_bind {A B} (m : M A) (k : A -> M B) :
  instr m -> (forall a, instr (k a)) -> instr (bind m k).
Proof.
  intros Hm Hk w. unfold bind.
  destruct (Hm w) as (evs & Ht & Hg & Hh & Ha).
  destruct (m w) as [[a|e] w1]; cbn in *.
  - destruct (Hk a w1) as (evs' & Ht' & Hg' & Hh' & Ha').
    exists (evs ++ evs')%list. rewrite Ht', Ht, app_assoc, forallb_app, Hg, Hg'.
    repeat split; congruence.
  - exists evs. auto.
Qed.

Lemma instr_emit (e : Event) : instrEvent e = true -> instr (emit e).
Proof.
  intros He w. exists [e].
  assert (Hg : forallb instrEvent [e] = true) by (unfold forallb; rewrite He; reflexivity).
  cbn [emit snd trace host alertHooks]. auto.
Qed.

Lemma instr_log (line : string) : instr (log line).
Proof. apply instr_emit. reflexivity. Qed.

Lemma instr_getLevelStartTime : instr getLevelStartTime.
Proof. apply instr_silent; cbn; auto. Qed.

Lemma instr_getCurrentLevelId : instr getCurrentLevelId.
Proof. apply instr_silent; cbn; auto. Qed.

Lemma instr_getTaskCounter : instr getTaskCounter.
Proof. apply instr_silent; cbn; auto. Qed.

Lemma instr_getHost : instr getHost.
Proof. apply instr_silent; cbn; auto. Qed.

Lemma instr_setLevelStartTime (t : option Z) : instr (setLevelStartTime t).
Proof. apply instr_silent; cbn; auto. Qed.

Lemma instr_setCurrentLevelId (id : option string) : instr (setCurrentLevelId id).
Proof. apply instr_silent; cbn; auto. Qed.

Lemma instr_setTaskCounter (n : nat) : instr (setTaskCounter n).
Proof. apply instr_silent; cbn; auto. Qed.

Lemma instr_dateNow : instr (dateNow E).
Proof. apply instr_silent; cbn; auto. Qed.

Lemma instr_sinkCall (c : SinkCall) :
  instrEvent (EvSink c) = true -> instr (sinkCall E c).
Proof.
  intros Hc w. exists [EvSink c].
  assert (Hg : forallb instrEvent [EvSink c] = true) by (unfold forallb; rewrite Hc; reflexivity).
  unfold sinkCall.
  destruct (sink E (trace w) c); cbn [snd trace host alertHooks]; auto.
Qed.

Lemma instr_readGameState (field : string) : instr (readGameState field).
Proof.
  unfold readGameState. apply instr_bind; [apply instr_getHost|].
  intros h. destruct (gameState h); [apply instr_ret | apply instr_lift].
Qed.

Lemma instr_readDataset (c : Card) (entry : string) : instr (readDataset c entry).
Proof.
  destruct c; [apply instr_ret | apply instr_lift].
Qed.

Lemma instr_tryCatch (hook : string) (body : M unit) :
  instr body -> instr (tryCatch hook body).
Proof.
  intros Hb w. unfold tryCatch.
  destruct (Hb w) as (evs & Ht & Hg & Hh & Ha).
  destruct (body w) as [[u|e] w1]; cbn in *.
  - exists evs. auto.
  - exists (evs ++ [EvError hook e])%list.
    rewrite Ht, app_assoc, forallb_app, Hg. auto.
Qed.

(** A [catch] swallows whatever the [try] block raised. *)
Lemma tryCatch_normal (hook : string) (body : M unit) (w : World) :
  fst (tryCatch hook body w) = Normal tt.
Proof.
  unfold tryCatch. destruct (body w) as [[u|e] w1]; reflexivity.
Qed.

End InstrRules.

#[local] Hint Resolve instr_ret instr_lift instr_log instr_getLevelStartTime
  instr_getCurrentLevelId instr_getTaskCounter instr_getHost
  instr_setLevelStartTime instr_setCurrentLevelId instr_setTaskCounter
  instr_dateNow instr_readGameState instr_readDataset instr_tryCatch : instr.

(** Decompose a block into its statements and discharge each. *)
Ltac instr_block :=
  repeat first
    [ apply instr_bind; [ | intros ? ]
    | apply instr_sinkCall; reflexivity
    | solve [ auto with instr ]
    | match goal with
      | |- instr (match ?x with _ => _ end) => destruct x
      end ].

Section Bodies.

Variable E : Env.

Lemma instr_startGameBody (level : value) : instr (startGameBody E level).
Proof. unfold startGameBody. instr_block. Qed.

Lemma instr_startReflexModeBody : instr (startReflexModeBody E).
Proof. unfold startReflexModeBody. instr_block. Qed.

Lemma instr_handleCorrectMatchBody : instr (handleCorrectMatchBody E).
Proof. unfold handleCorrectMatchBody. instr_block. Qed.

Lemma instr_handleIncorrectMatchBody : instr (handleIncorrectMatchBody E).
Proof. unfold handleIncorrectMatchBody. instr_block. Qed.

Lemma instr_handleCampaignWinBody : instr (handleCampaignWinBody E).
Proof. unfold handleCampaignWinBody. instr_block. Qed.

Lemma instr_handleReflexModeEndBody : instr (handleReflexModeEndBody E).
Proof. unfold handleReflexModeEndBody. instr_block. Qed.

Lemma instr_alertBody (message : value) : instr (alertBody E message).
Proof. unfold alertBody. instr_block. Qed.

End Bodies.

(** ** Shape of one wrapped call *)

Section Wrappers.

Variable E : Env.

(** [try { body } catch ...; return original.call(this, args)] with the
    original present. *)
Lemma wrapper_delegates (hook : string) (body : M unit) (op : Op)
      (this : value) (args : list value) f (w : World) :
  instr body ->
  original E op = Some f ->
  exists pre,
    trace (snd ((tryCatch hook body ;; callOriginal E op this args) w))
      = (trace w ++ pre ++ [EvOriginal op this args])%list /\
    forallb instrEvent pre = true /\
    fst ((tryCatch hook body ;; callOriginal E op this args) w)
      = fst (f this args (host w)) /\
    host (snd ((tryCatch hook body ;; callOriginal E op this args) w))
      = snd (f this args (host w)).
Proof.
  intros Hb Hf. unfold bind.
  destruct (instr_tryCatch hook body Hb w) as (pre & Ht & Hg & Hh & _).
  pose proof (tryCatch_normal hook body w) as Hn.
  destruct (tryCatch hook body w) as [r w1]; cbn in Hn, Ht, Hh; subst r.
  unfold callOriginal. rewrite Hf, Hh.
  destruct (f this args (host w)) as [res h']. cbn.
  exists pre. rewrite Ht, app_assoc. auto.
Qed.

(** The same wrapper when the captured original is [undefined]. *)
Lemma wrapper_absent (hook : string) (body : M unit) (op : Op)
      (this : value) (args : list value) (w : World) :
  instr body ->
  original E op = None ->
  exists pre,
    trace (snd ((tryCatch hook body ;; callOriginal E op this args) w))
      = (trace w ++ pre)%list /\
    forallb instrEvent pre = true /\
    fst ((tryCatch hook body ;; callOriginal E op this args) w)
      = Abrupt absentOriginal.
Proof.
  intros Hb Hf. unfold bind.
  destruct (instr_tryCatch hook body Hb w) as (pre & Ht & Hg & _ & _).
  pose proof (tryCatch_normal hook body w) as Hn.
  destruct (tryCatch hook body w) as [r w1]; cbn in Hn, Ht; subst r.
  unfold callOriginal. rewrite Hf. cbn. exists pre. auto.
Qed.

(** [n] stacked [alert] wrappers over a present host [alert]. *)
Lemma alertLayers_delegates (n : nat) (this message : value) f (w : World) :
  original E OpAlert = Some f ->
  exists pre,
    trace (snd (alertLayers E n this message w))
      = (trace w ++ pre ++ [EvOriginal OpAlert this [message]])%list /\
    forallb instrEvent pre = true /\
    fst (alertLayers E n this message w) = fst (f this [message] (host w)) /\
    host (snd (alertLayers E n this message w)) = snd (f this [message] (host w)).
Proof.
  intros Hf. revert w. induction n as [|n IH]; intros w.
  - cbn. unfold callOriginal. rewrite Hf.
    destruct (f this [message] (host w)) as [res h']. cbn.
    exists []. auto.
  - cbn [alertLayers]. unfold bind.
    destruct (instr_tryCatch "alert" _ (instr_alertBody E message) w)
      as (pre & Ht & Hg & Hh & _).
    pose proof (tryCatch_normal "alert" (alertBody E message) w) as Hn.
    destruct (tryCatch "alert" (alertBody E message) w) as [r w1];
      cbn in Hn, Ht, Hh; subst r.
    destruct (IH w1) as (pre' & Ht' & Hg' & Hr' & Hh').
    exists (pre ++ pre')%list.
    rewrite Ht', Ht, forallb_app, Hg, Hg', Hr', Hh', Hh, <- !app_assoc. auto.
Qed.

Lemma alertLayers_absent (n : nat) (this message : value) (w : World) :
  original E OpAlert = None ->
  exists pre,
    trace (snd (alertLayers E n this message w)) = (trace w ++ pre)%list /\
    forallb instrEvent pre = true /\
    fst (alertLayers E n this message w) = Abrupt absentOriginal.
Proof.
  intros Hf. revert w. induction n as [|n IH]; intros w.
  - cbn. unfold callOriginal. rewrite Hf. cbn.
    exists []. rewrite app_nil_r. auto.
  - cbn [alertLayers]. unfold bind.
    destruct (instr_tryCatch "alert" _ (instr_alertBody E message) w)
      as (pre & Ht & Hg & _ & _).
    pose proof (tryCatch_normal "alert" (alertBody E message) w) as Hn.
    destruct (tryCatch "alert" (alertBody E message) w) as [r w1];
      cbn in Hn, Ht; subst r.
    destruct (IH w1) as (pre' & Ht' & Hg' & Hr').
    exists (pre ++ pre')%list.
    rewrite Ht', Ht, forallb_app, Hg, Hg', Hr', <- !app_assoc. auto.
Qed.

(** [startTimer] with the original present: the original runs, then the
    wrapper of [alert] is installed. *)
Lemma startTimer_delegates (this duration : value) f (w : World) :
  original E OpStartTimer = Some f ->
  trace (snd (startTimer E this duration w))
    = (trace w ++ [EvOriginal OpStartTimer this [duration]]
         ++ match fst (f this [duration] (host w)) with
            | Normal _ => [EvInstall OpAlert]
            | Abrupt _ => []
            end)%list /\
  fst (startTimer E this duration w) = fst (f this [duration] (host w)) /\
  host (snd (startTimer E this duration w)) = snd (f this [duration] (host w)).
Proof.
  intros Hf. unfold startTimer, bind, callOriginal. rewrite Hf.
  destruct (f this [duration] (host w)) as [[res|e] h']; cbn;
    rewrite <- ?app_assoc; auto.
Qed.

End Wrappers.

(** Conclude from a wrapper lemma that nothing follows the original. *)
Ltac delegate_by H :=
  let pre := fresh "pre" in
  destruct H as (pre & ? & ? & ? & ?);
  exists pre, (@nil Event); repeat split; auto; discriminate.

Section Invocation.

Variable E : Env.

(** Every wrapped call with its original present: instrumentation
    events, one call of the original with the caller's [this] and
    arguments, and (for [startTimer] only) events after it. *)
Lemma invoke_delegates (this : value) (c : Call) (w : World) f :
  original E (opOf c) = Some f ->
  exists pre post,
    trace (snd (invoke E this c w))
      = (trace w ++ pre ++ EvOriginal (opOf c) this (argsOf c) :: post)%list /\
    forallb instrEvent pre = true /\
    forallb instrEvent post = true /\
    (isStartTimer c = false -> post = []) /\
    (isStartTimer c = true -> pre = []) /\
    fst (invoke E this c w) = fst (f this (argsOf c) (host w)) /\
    host (snd (invoke E this c w)) = snd (f this (argsOf c) (host w)).
Proof.
  intros Hf.
  destruct c; cbn [invoke opOf argsOf isStartTimer] in *.
  - delegate_by (wrapper_delegates E "startGame" _ _ this [level] f w
                   (instr_startGameBody E level) Hf).
  - delegate_by (wrapper_delegates E "startReflexMode" _ _ this [] f w
                   (instr_startReflexModeBody E) Hf).
  - delegate_by (wrapper_delegates E "handleCorrectMatch" _ _ this [] f w
                   (instr_handleCorrectMatchBody E) Hf).
  - delegate_by (wrapper_delegates E "handleIncorrectMatch" _ _ this [] f w
                   (instr_handleIncorrectMatchBody E) Hf).
  - delegate_by (wrapper_delegates E "handleCampaignWin" _ _ this [] f w
                   (instr_handleCampaignWinBody E) Hf).
  - delegate_by (wrapper_delegates E "handleReflexModeEnd" _ _ this [] f w
                   (instr_handleReflexModeEndBody E) Hf).
  - destruct (startTimer_delegates E this duration f w Hf) as (Ht & Hr & Hh).
    exists [], (match fst (f this [duration] (host w)) with
                | Normal _ => [EvInstall OpAlert]
                | Abrupt _ => []
                end).
    repeat split; auto.
    + destruct (fst (f this [duration] (host w))); reflexivity.
    + discriminate.
  - unfold alert.
    destruct (alertLayers_delegates E (alertHooks w) this message f w Hf)
      as (pre & Ht & Hg & Hr & Hh).
    exists pre, []. repeat split; auto. discriminate.
Qed.

(** Every wrapped call whose original is [undefined]: the wrapper is
    entered all the same and the attempt to call the original throws. *)
Lemma invoke_absent (this : value) (c : Call) (w : World) :
  original E (opOf c) = None ->
  exists pre,
    trace (snd (invoke E this c w)) = (trace w ++ pre)%list /\
    forallb instrEvent pre = true /\
    fst (invoke E this c w) = Abrupt absentOriginal.
Proof.
  intros Hf.
  destruct c; cbn [invoke opOf argsOf] in *;
    try (apply wrapper_absent; [ | exact Hf ]).
  - apply instr_startGameBody.
  - apply instr_startReflexModeBody.
  - apply instr_handleCorrectMatchBody.
  - apply instr_handleIncorrectMatchBody.
  - apply instr_handleCampaignWinBody.
  - apply instr_handleReflexModeEndBody.
  - unfold startTimer, bind, callOriginal. rewrite Hf. cbn.
    exists []. rewrite app_nil_r. auto.
  - unfold alert. apply alertLayers_absent. exact Hf.
Qed.

(** The trace after a call is the trace before it followed by [emitted]. *)
Lemma trace_invoke (this : value) (c : Call) (w : World) :
  trace (snd (invoke E this c w)) = (trace w ++ emitted E this c w)%list.
Proof.
  unfold emitted.
  destruct (original E (opOf c)) as [f|] eqn:Hf.
  - destruct (invoke_delegates this c w f Hf) as (pre & post & Ht & _).
    rewrite Ht, since_app. reflexivity.
  - destruct (invoke_absent this c w Hf) as (pre & Ht & _).
    rewrite Ht, since_app. reflexivity.
Qed.

End Invocation.

(** ** C1: the original is called once, unchanged *)

(** C1. For each of the eight hooked operations whose original exists, a
    call of the wrapped version calls the original exactly once, with the
    caller's [this] and the arguments of its signature ([level],
    [duration], [message]; none for the others) and on the host state the
    caller left,
    and hands back the original's completion (its return value, or the
    exception it raised) and its effect on the host state; this holds for
    every sink, clock and host state, hence also when the instrumentation
    throws. *)
Theorem wrapped_call_preserves_original
        (E : Env) (this : value) (c : Call) (w : World) f :
  original E (opOf c) = Some f ->
  originalCalls (emitted E this c w) = 1 /\
  In (EvOriginal (opOf c) this (argsOf c)) (emitted E this c w) /\
  fst (invoke E this c w) = fst (f this (argsOf c) (host w)) /\
  host (snd (invoke E this c w)) = snd (f this (argsOf c) (host w)).
Proof.
  intros Hf. unfold emitted.
  destruct (invoke_delegates E this c w f Hf)
    as (pre & post & Ht & Hpre & Hpost & _ & _ & Hr & Hh).
  rewrite Ht, since_app.
  repeat split; auto.
  - rewrite originalCalls_app.
    change (EvOriginal (opOf c) this (argsOf c) :: post)
      with ([EvOriginal (opOf c) this (argsOf c)] ++ post)%list.
    rewrite originalCalls_app.
    rewrite (instrEvent_not_original pre Hpre), (instrEvent_not_original post Hpost).
    reflexivity.
  - apply in_or_app. right. left. reflexivity.
Qed.

(** The campaign-win hook on a page whose sink throws and whose
    [gameState] is missing: its [try] block fails at the first statement,
    the original is still called once and its [7] returned. *)
Lemma wrapped_call_preserves_original_witness :
  noErrorLogged (emitted brokenSinkPage (VStr "window") CallHandleCampaignWin
                         (freshWorld bareHost)) = false /\
  originalCalls (emitted brokenSinkPage (VStr "window") CallHandleCampaignWin
                         (freshWorld bareHost)) = 1 /\
  In (EvOriginal OpHandleCampaignWin (VStr "window") [])
     (emitted brokenSinkPage (VStr "window") CallHandleCampaignWin
              (freshWorld bareHost)) /\
  fst (invoke brokenSinkPage (VStr "window") CallHandleCampaignWin
              (freshWorld bareHost)) = Normal (VNum 7) /\
  host (snd (invoke brokenSinkPage (VStr "window") CallHandleCampaignWin
                    (freshWorld bareHost))) = bareHost.
Proof.
  split; [ vm_compute; reflexivity | ].
  apply (wrapped_call_preserves_original brokenSinkPage (VStr "window")
           CallHandleCampaignWin (freshWorld bareHost) (returns (VNum 7))).
  reflexivity.
Defined.

(** ** C9: order of instrumentation and original *)

(** C9, as the script has it.  With the original present: for every
    hooked operation except [startTimer] all instrumentation events of a
    call come before the call of the original, which is the last event;
    [startTimer] calls its original first and, when that returns
    normally, rebinds [window.alert] afterwards.  In both cases the
    completion of the original is the completion of the call. *)
Theorem instrumentation_first_except_startTimer
        (E : Env) (this : value) (c : Call) (w : World) f :
  original E (opOf c) = Some f ->
  (isStartTimer c = false -> instrumentationFirst E this c w) /\
  (isStartTimer c = true ->
     emitted E this c w
       = EvOriginal (opOf c) this (argsOf c)
           :: match fst (f this (argsOf c) (host w)) with
              | Normal _ => [EvInstall OpAlert]
              | Abrupt _ => []
              end) /\
  fst (invoke E this c w) = fst (f this (argsOf c) (host w)).
Proof.
  intros Hf. unfold instrumentationFirst, emitted.
  destruct (invoke_delegates E this c w f Hf)
    as (pre & post & Ht & Hpre & _ & Hpost & _ & Hr & _).
  repeat split; auto.
  - intros Hc. exists pre. rewrite Ht, since_app, (Hpost Hc). auto.
  - intros Hc. destruct c; try discriminate. cbn [invoke opOf argsOf] in *.
    destruct (startTimer_delegates E this duration f w Hf) as (Ht' & _ & _).
    rewrite Ht', since_app. reflexivity.
Qed.

Lemma instrumentation_first_except_startTimer_witness :
  instrumentationFirst samplePage VUndefined (CallStartGame (VNum 3))
                       (freshWorld (sampleHost [])) /\
  fst (invoke samplePage VUndefined (CallStartGame (VNum 3))
              (freshWorld (sampleHost []))) = Normal (VNum 7).
Proof.
  destruct (instrumentation_first_except_startTimer samplePage VUndefined
              (CallStartGame (VNum 3)) (freshWorld (sampleHost []))
              (returns (VNum 7)) eq_refl) as (Hfirst & _ & Hres).
  split; [ apply Hfirst; reflexivity | exact Hres ].
Defined.

(** C9 as stated fails for [startTimer]: on the sample page the call of
    the original is the first event and the rebinding of [window.alert]
    follows it. *)
Lemma startTimer_calls_original_first :
  emitted samplePage VUndefined (CallStartTimer (VNum 60)) (freshWorld (sampleHost []))
    = [EvOriginal OpStartTimer VUndefined [VNum 60]; EvInstall OpAlert] /\
  ~ instrumentationFirst samplePage VUndefined (CallStartTimer (VNum 60))
                         (freshWorld (sampleHost [])).
Proof.
  assert (Hev : emitted samplePage VUndefined (CallStartTimer (VNum 60))
                        (freshWorld (sampleHost []))
                = [EvOriginal OpStartTimer VUndefined [VNum 60]; EvInstall OpAlert])
    by reflexivity.
  split; [ exact Hev | ].
  intros (pre & Hpre & _). rewrite Hev in Hpre.
  change [EvOriginal OpStartTimer VUndefined [VNum 60]; EvInstall OpAlert]
    with ([EvOriginal OpStartTimer VUndefined [VNum 60]] ++ [EvInstall OpAlert])%list
    in Hpre.
  apply app_inj_tail in Hpre as [_ Hlast]. discriminate Hlast.
Qed.

(** ** C3: an original that does not exist *)

(** C3, as the script has it.  When the original of a hooked operation
    is [undefined]: loading does not look at the originals at all, so
    nothing is skipped or logged for the absent one and all seven
    load-time wrappers are installed whenever loading completes; a later
    call of the operation runs the instrumentation only and ends with the
    [TypeError] raised by the attempt to call the absent original. *)
Theorem absent_original_wrapper_throws
        (E : Env) (this : value) (c : Call) (w : World) :
  original E (opOf c) = None ->
  (forall others w0,
     attach (mkEnv (now E) (randomSuffix E) (sink E) others) w0 = attach E w0) /\
  (forall h op,
     fst (attach E (freshWorld h)) = Normal tt ->
     In op loadedHooks ->
     In (EvInstall op) (trace (snd (attach E (freshWorld h))))) /\
  fst (invoke E this c w) = Abrupt absentOriginal /\
  forallb instrEvent (emitted E this c w) = true.
Proof.
  intros Hf. split; [ | split; [ | split ] ].
  - intros others w0. reflexivity.
  - intros h op Hn Hop. revert Hn.
    unfold attach, bind, sinkCall.
    cbv [dateNow log emit freshWorld trace levelStartTime currentLevelId
         taskCounter alertHooks clockReads host snd fst setLevelStartTime
         setCurrentLevelId setTaskCounter installAll loadedHooks ret bind app].
    destruct (sink E _ _); [ discriminate | intros _ ].
    cbv [loadedHooks In] in Hop |- *.
    repeat (destruct Hop as [<- | Hop]; [ auto 20 | ]). destruct Hop.
  - destruct (invoke_absent E this c w Hf) as (pre & _ & _ & Hr). exact Hr.
  - unfold emitted. destruct (invoke_absent E this c w Hf) as (pre & Ht & Hg & _).
    rewrite Ht, since_app. exact Hg.
Qed.

Lemma absent_original_wrapper_throws_witness :
  fst (invoke noReflexPage VUndefined CallStartReflexMode
              (snd (attach noReflexPage (freshWorld (sampleHost [])))))
    = Abrupt absentOriginal.
Proof.
  apply (absent_original_wrapper_throws noReflexPage VUndefined CallStartReflexMode
           (snd (attach noReflexPage (freshWorld (sampleHost []))))).
  reflexivity.
Defined.

(** C3 as stated fails on a page without reflex mode: loading completes
    and installs the wrapper of [startReflexMode] all the same, and the
    first call of [startReflexMode] reports the level start to the sink
    and then throws. *)
Lemma absent_reflex_mode_is_hooked_and_throws :
  original noReflexPage OpStartReflexMode = None /\
  fst (attach noReflexPage (freshWorld (sampleHost []))) = Normal tt /\
  In (EvInstall OpStartReflexMode)
     (trace (snd (attach noReflexPage (freshWorld (sampleHost []))))) /\
  emitted noReflexPage VUndefined CallStartReflexMode
          (snd (attach noReflexPage (freshWorld (sampleHost []))))
    = [EvSink (StartLevel (Some "reflex_mode")); EvLog "[Analytics] Started Reflex Mode"] /\
  fst (invoke noReflexPage VUndefined CallStartReflexMode
              (snd (attach noReflexPage (freshWorld (sampleHost [])))))
    = Abrupt (TypeError "Cannot read properties of undefined (reading 'call')").
Proof.
  split; [ reflexivity | ].
  split; [ vm_compute; reflexivity | ].
  split; [ vm_compute; auto 20 | ].
  split; vm_compute; reflexivity.
Qed.

(** ** Following every path of a hook *)

(** Unfold the hooks down to the primitives of the monad; the world
    must have been opened into its fields, so that every projection
    computes. *)
Ltac unfold_hooks :=
  cbv beta iota zeta delta
      [emitted invoke startGame startReflexMode handleCorrectMatch
       handleIncorrectMatch handleCampaignWin handleReflexModeEnd startTimer
       startGameBody startReflexModeBody handleCorrectMatchBody
       handleIncorrectMatchBody handleCampaignWinBody handleReflexModeEndBody
       alertBody installAlertHook tryCatch bind ret lift log emit sinkCall
       callOriginal dateNow readGameState readDataset getHost
       getLevelStartTime getCurrentLevelId getTaskCounter setLevelStartTime
       setCurrentLevelId setTaskCounter
       fst snd trace host taskCounter levelStartTime currentLevelId
       alertHooks clockReads].

(** Replace the world [w] by its seven fields. *)
Ltac open_world w :=
  destruct w as [? ? ? ? ? ? ?];
  cbn [fst snd trace host taskCounter levelStartTime currentLevelId
       alertHooks clockReads] in *.

(** Case analysis on every test the hook makes, innermost first. *)
Ltac split_paths :=
  repeat match goal with
         | |- context [match ?x with _ => _ end] =>
             lazymatch x with
             | context [match _ with _ => _ end] => fail
             | _ => destruct x eqn:?
             end
         end.

(** Bring the trace of each path to the form [trace w ++ events]. *)
Ltac new_events := rewrite <- ?app_assoc, ?since_app, ?since_self.

Lemma taskIds_app (t u : list Event) : taskIds (t ++ u)%list = (taskIds t ++ taskIds u)%list.
Proof. unfold taskIds. apply flat_map_app. Qed.

Lemma instrEvent_taskFieldsZero (evs : list Event) :
  forallb instrEvent evs = true -> forallb taskFieldsZero evs = true.
Proof.
  induction evs as [|e evs IH]; simpl; intros H; auto.
  apply andb_prop in H as [He Hr]. rewrite (IH Hr), andb_true_r.
  destruct e; auto.
Qed.

Section Runs.

Variable E : Env.

Lemma emitted_taskFieldsZero (this : value) (c : Call) (w : World) :
  forallb taskFieldsZero (emitted E this c w) = true.
Proof.
  unfold emitted.
  destruct (original E (opOf c)) as [f|] eqn:Hf.
  - destruct (invoke_delegates E this c w f Hf) as (pre & post & Ht & Hpre & Hpost & _).
    rewrite Ht, since_app, forallb_app. simpl.
    rewrite (instrEvent_taskFieldsZero _ Hpre), (instrEvent_taskFieldsZero _ Hpost).
    reflexivity.
  - destruct (invoke_absent E this c w Hf) as (pre & Ht & Hpre & _).
    rewrite Ht, since_app. apply instrEvent_taskFieldsZero, Hpre.
Qed.

Lemma trace_step (ev : HostEvent) (w : World) :
  exists new, trace (step E ev w) = (trace w ++ new)%list /\
              forallb taskFieldsZero new = true.
Proof.
  destruct ev as [this c | f]; cbn [step].
  - exists (emitted E this c w). split.
    + apply trace_invoke.
    + apply emitted_taskFieldsZero.
  - exists []. cbn. rewrite app_nil_r. auto.
Qed.

(** A run only appends to the trace. *)
Lemma trace_run (evs : list HostEvent) (w : World) :
  trace (run E evs w) = (trace w ++ since (trace w) (trace (run E evs w)))%list /\
  forallb taskFieldsZero (since (trace w) (trace (run E evs w))) = true.
Proof.
  revert w. induction evs as [|ev evs IH]; intros w; cbn [run].
  - rewrite since_self, app_nil_r. auto.
  - destruct (trace_step ev w) as (new & Hs & Hz).
    destruct (IH (step E ev w)) as (Ht & Hz').
    remember (since (trace (step E ev w)) (trace (run E evs (step E ev w)))) as rest.
    rewrite Ht, Hs, <- app_assoc, since_app, forallb_app, Hz, Hz'.
    auto.
Qed.

End Runs.

(** ** C10: per-task time and XP *)

(** C10. Whatever the host does and from whatever state, every task
    record the hooks hand to the sink (from a correct or an incorrect
    match) has [timeTakenMs = 0] and [xpEarned = 0]. *)
Theorem task_records_have_zero_time_and_xp
        (E : Env) (evs : list HostEvent) (w : World)
        (id : option string) (tid label expected actual : string) (time xp : Z) :
  In (EvSink (RecordTask id tid label expected actual time xp))
     (since (trace w) (trace (run E evs w))) ->
  time = 0%Z /\ xp = 0%Z.
Proof.
  intros Hin.
  destruct (trace_run E evs w) as (_ & Hz).
  rewrite forallb_forall in Hz. specialize (Hz _ Hin). cbn in Hz.
  apply andb_prop in Hz as [Ht Hx].
  split; apply Z.eqb_eq; assumption.
Qed.

Lemma task_records_have_zero_time_and_xp_witness :
  In (EvSink (RecordTask (Some "campaign_level_3") "task_2" "Match: A" "A" "B" 0 0))
     (since (trace (freshWorld (sampleHost cardsAB)))
            (trace (run samplePage sampleMatches (freshWorld (sampleHost cardsAB))))) /\
  (0 = 0 /\ 0 = 0)%Z.
Proof.
  assert (Hin : In (EvSink (RecordTask (Some "campaign_level_3") "task_2"
                                       "Match: A" "A" "B" 0 0))
                   (since (trace (freshWorld (sampleHost cardsAB)))
                          (trace (run samplePage sampleMatches
                                      (freshWorld (sampleHost cardsAB))))))
    by (vm_compute; auto 10).
  split; [ exact Hin | ].
  exact (task_records_have_zero_time_and_xp samplePage sampleMatches
           (freshWorld (sampleHost cardsAB)) _ _ _ _ _ _ _ Hin).
Defined.

(** ** Effect of one call on the module variables *)

Section Frames.

Variable E : Env.

(** One [alert] wrapper's [try] block records no task and leaves the
    three module variables alone. *)
Lemma alert_layer_frame (message : value) (w : World) :
  taskIds (since (trace w) (trace (snd (tryCatch "alert" (alertBody E message) w)))) = [] /\
  taskCounter (snd (tryCatch "alert" (alertBody E message) w)) = taskCounter w /\
  levelStartTime (snd (tryCatch "alert" (alertBody E message) w)) = levelStartTime w /\
  currentLevelId (snd (tryCatch "alert" (alertBody E message) w)) = currentLevelId w.
Proof.
  open_world w. unfold_hooks. split_paths; new_events; repeat split; reflexivity.
Qed.

Lemma alertLayers_frame (n : nat) (this message : value) (w : World) :
  exists new,
    trace (snd (alertLayers E n this message w)) = (trace w ++ new)%list /\
    taskIds new = [] /\
    taskCounter (snd (alertLayers E n this message w)) = taskCounter w /\
    levelStartTime (snd (alertLayers E n this message w)) = levelStartTime w /\
    currentLevelId (snd (alertLayers E n this message w)) = currentLevelId w.
Proof.
  revert w. induction n as [|n IH]; intros w.
  - cbn [alertLayers]. open_world w. unfold_hooks. split_paths.
    + eexists. split; [ reflexivity | auto ].
    + exists []. rewrite app_nil_r. auto.
  - cbn [alertLayers]. unfold bind.
    destruct (alert_layer_frame message w) as (Hi & Hc & Hs & Hl).
    destruct (instr_tryCatch "alert" _ (instr_alertBody E message) w) as (pre & Ht & _).
    pose proof (tryCatch_normal "alert" (alertBody E message) w) as Hn.
    destruct (tryCatch "alert" (alertBody E message) w) as [r w1];
      cbn [fst snd] in *; subst r.
    rewrite Ht, since_app in Hi.
    destruct (IH w1) as (new & Ht' & Hi' & Hc' & Hs' & Hl').
    exists (pre ++ new)%list.
    rewrite Ht', Ht, taskIds_app, Hi, Hi', <- app_assoc.
    repeat split; congruence.
Qed.

(** A level start: counter back to [0], fresh start time and level
    identity, no task recorded. *)
Lemma start_call_effect (this : value) (c : Call) (w : World) :
  isStartCall c = true ->
  taskIds (emitted E this c w) = [] /\
  taskCounter (snd (invoke E this c w)) = 0 /\
  levelStartTime (snd (invoke E this c w)) = Some (now E (clockReads w)) /\
  currentLevelId (snd (invoke E this c w)) = levelIdOf c.
Proof.
  destruct c; try discriminate; intros _; cbn [levelIdOf];
    open_world w; unfold_hooks; split_paths; new_events; repeat split; reflexivity.
Qed.

(** Any other call keeps start time and level identity, and either
    records nothing or records the next task. *)
Lemma other_call_effect (this : value) (c : Call) (w : World) :
  isStartCall c = false ->
  levelStartTime (snd (invoke E this c w)) = levelStartTime w /\
  currentLevelId (snd (invoke E this c w)) = currentLevelId w /\
  ((taskIds (emitted E this c w) = [] /\
    taskCounter (snd (invoke E this c w)) = taskCounter w) \/
   (taskIds (emitted E this c w) = [taskId (S (taskCounter w))] /\
    taskCounter (snd (invoke E this c w)) = S (taskCounter w))).
Proof.
  destruct c; try discriminate; intros _.
  1-5: open_world w; unfold_hooks; split_paths; new_events;
       (repeat split; try reflexivity);
       solve [ left; split; reflexivity | right; split; reflexivity ].
  unfold emitted. cbn [invoke]. unfold alert.
  destruct (alertLayers_frame (alertHooks w) this message w)
    as (new & Ht & Hi & Hc & Hs & Hl).
  rewrite Ht, since_app. auto.
Qed.

End Frames.

(** ** C5: task sequence numbers *)

Lemma taskId_inj (m n : nat) : taskId m = taskId n -> m = n.
Proof.
  unfold taskId, decimalNat. intros H. cbn in H. injection H as H.
  apply (f_equal NilEmpty.uint_of_string) in H.
  rewrite !NilEmpty.usu in H. injection H as H.
  apply (f_equal Nat.of_uint) in H.
  rewrite !Unsigned.of_to in H. exact H.
Qed.

Section TaskSequence.

Variable E : Env.

(** Between two level starts the recorded task identifiers continue the
    counter one by one, and start time and level identity stay. *)
Lemma run_tasks (evs : list HostEvent) (w : World) :
  noStart evs = true ->
  levelStartTime (run E evs w) = levelStartTime w /\
  currentLevelId (run E evs w) = currentLevelId w /\
  exists k,
    taskIds (since (trace w) (trace (run E evs w)))
      = map taskId (seq (S (taskCounter w)) k) /\
    taskCounter (run E evs w) = taskCounter w + k.
Proof.
  revert w. induction evs as [|ev evs IH]; intros w Hns; cbn [run].
  - repeat split; auto. exists 0. rewrite since_self. cbn. auto.
  - cbn in Hns. apply andb_prop in Hns as [Hev Hns].
    destruct (IH (step E ev w) Hns) as (Hs & Hl & k & Hids & Hc).
    destruct (trace_run E evs (step E ev w)) as (Ht & _).
    remember (since (trace (step E ev w)) (trace (run E evs (step E ev w)))) as rest.
    destruct ev as [this c | f]; cbn [step] in *.
    + apply negb_true_iff in Hev. cbn [isStartEvent] in Hev.
      destruct (other_call_effect E this c w Hev) as (Hs1 & Hl1 & Hcase).
      rewrite Hs, Hl, Hs1, Hl1, Ht, (trace_invoke E this c w), <- app_assoc,
        since_app, taskIds_app, Hids.
      repeat split; auto.
      destruct Hcase as [[Hi1 Hc1] | [Hi1 Hc1]]; rewrite Hi1, Hc, Hc1.
      * exists k. auto.
      * exists (S k). cbn [seq map app]. split; [ reflexivity | lia ].
    + cbn [trace taskCounter levelStartTime currentLevelId] in *.
      rewrite Ht, since_app. repeat split; auto.
      exists k. auto.
Qed.

End TaskSequence.

(** C5. A level start (campaign or reflex) sets the task counter to [0]
    whatever it was, also when the previous level never ended; the tasks
    recorded from then until the next level start carry the identifiers
    [task_1], [task_2], ..., [task_k] in this order, so the first one is
    [task_1] and the sequence numbers increase by one. *)
Theorem task_ids_restart_at_level_start
        (E : Env) (this : value) (c : Call) (evs : list HostEvent) (w : World) :
  isStartCall c = true ->
  noStart evs = true ->
  taskCounter (snd (invoke E this c w)) = 0 /\
  exists k,
    taskIds (since (trace (snd (invoke E this c w)))
                   (trace (run E evs (snd (invoke E this c w)))))
      = map taskId (seq 1 k) /\
    taskCounter (run E evs (snd (invoke E this c w))) = k /\
    (forall first rest,
        taskIds (since (trace (snd (invoke E this c w)))
                       (trace (run E evs (snd (invoke E this c w)))))
          = first :: rest ->
        first = "task_1").
Proof.
  intros Hc Hns.
  destruct (start_call_effect E this c w Hc) as (_ & Hzero & _ & _).
  destruct (run_tasks E evs (snd (invoke E this c w)) Hns) as (_ & _ & k & Hids & Hk).
  rewrite Hzero in Hids, Hk. split; [ exact Hzero | ].
  exists k. repeat split; auto.
  intros first rest Hfirst. rewrite Hids in Hfirst.
  destruct k as [|k]; cbn in Hfirst; [ discriminate | ].
  injection Hfirst as <- _. reflexivity.
Qed.

(** Level 1 with two recorded tasks, then level 2 started without an
    end of level 1: the tasks of level 2 are [task_1] and [task_2]. *)
Lemma task_ids_restart_at_level_start_witness :
  taskCounter (run samplePage startL1ThenL2 (freshWorld (sampleHost cardsAB))) = 2 /\
  taskCounter (snd (invoke samplePage VUndefined (CallStartGame (VNum 2))
                           (run samplePage startL1ThenL2
                                (freshWorld (sampleHost cardsAB))))) = 0 /\
  taskIds (since (trace (snd (invoke samplePage VUndefined (CallStartGame (VNum 2))
                                     (run samplePage startL1ThenL2
                                          (freshWorld (sampleHost cardsAB))))))
                 (trace (run samplePage playL2
                             (snd (invoke samplePage VUndefined (CallStartGame (VNum 2))
                                          (run samplePage startL1ThenL2
                                               (freshWorld (sampleHost cardsAB))))))))
    = ["task_1"; "task_2"].
Proof.
  split; [ vm_compute; reflexivity | ].
  destruct (task_ids_restart_at_level_start samplePage VUndefined
              (CallStartGame (VNum 2)) playL2
              (run samplePage startL1ThenL2 (freshWorld (sampleHost cardsAB)))
              eq_refl eq_refl) as (Hzero & _).
  split; [ exact Hzero | vm_compute; reflexivity ].
Defined.

(** ** C6 and C7: expected and actual of a task record *)

Lemma orUnknown_present (s : string) : s <> "" -> orUnknown (Some s) = s.
Proof. destruct s; [ congruence | reflexivity ]. Qed.

Section MatchRecords.

Variable E : Env.

(** With two flipped cards that have a [dataset], the correct-match hook
    makes exactly one [recordTask] call, with these arguments. *)
Lemma correct_match_record (this : value) (w : World) gs d1 d2 :
  gameState (host w) = Some gs ->
  flippedCards gs = Some [Some d1; Some d2] ->
  taskRecords (emitted E this CallHandleCorrectMatch w)
    = [RecordTask (currentLevelId w) (taskId (S (taskCounter w)))
                  ("Match: " ++ orUnknown (ds_value d1))
                  (orUnknown (ds_value d1)) (orUnknown (ds_value d2)) 0 0].
Proof.
  intros Hgs Hfc. open_world w. unfold_hooks. rewrite Hgs, Hfc.
  split_paths; new_events; reflexivity.
Qed.

Lemma incorrect_match_record (this : value) (w : World) gs d1 d2 :
  gameState (host w) = Some gs ->
  flippedCards gs = Some [Some d1; Some d2] ->
  taskRecords (emitted E this CallHandleIncorrectMatch w)
    = [RecordTask (currentLevelId w) (taskId (S (taskCounter w)))
                  ("Match: " ++ orUnknown (ds_value d1))
                  (orUnknown (ds_match d1)) (orUnknown (ds_value d2)) 0 0].
Proof.
  intros Hgs Hfc. open_world w. unfold_hooks. rewrite Hgs, Hfc.
  split_paths; new_events; reflexivity.
Qed.

End MatchRecords.

(** C6. When a correct match is resolved with exactly two flipped cards
    whose [dataset.value] entries are read as the (non-empty) strings
    [v1] and [v2], exactly one task record is handed to the sink; its
    [expected] is [v1] and its [actual] is [v2]. *)
Theorem correct_match_expected_actual
        (E : Env) (this : value) (w : World) gs d1 d2 (v1 v2 : string) :
  gameState (host w) = Some gs ->
  flippedCards gs = Some [Some d1; Some d2] ->
  ds_value d1 = Some v1 -> v1 <> "" ->
  ds_value d2 = Some v2 -> v2 <> "" ->
  taskRecords (emitted E this CallHandleCorrectMatch w)
    = [RecordTask (currentLevelId w) (taskId (S (taskCounter w)))
                  ("Match: " ++ v1) v1 v2 0 0].
Proof.
  intros Hgs Hfc H1 Hn1 H2 Hn2.
  rewrite (correct_match_record E this w gs d1 d2 Hgs Hfc), H1, H2.
  rewrite !orUnknown_present by assumption. reflexivity.
Qed.

(** Two cards both showing [A]: [expected] and [actual] are both [A]. *)
Lemma correct_match_expected_actual_witness :
  taskRecords (emitted samplePage VUndefined CallHandleCorrectMatch (playing cardsAA 0))
    = [RecordTask (Some "campaign_level_3") "task_1" "Match: A" "A" "A" 0 0].
Proof.
  apply (correct_match_expected_actual samplePage VUndefined (playing cardsAA 0)
           (mkGameState (Some cardsAA) (VNum 3) (VNum 12))
           (mkDataset (Some "A") (Some "A")) (mkDataset (Some "A") (Some "A"))
           "A" "A");
    solve [ reflexivity | discriminate ].
Defined.

(** C7, as the script has it.  When an incorrect match is resolved with
    exactly two flipped cards that both have a [dataset], exactly one
    task record is handed to the sink; its [expected] is the first
    card's [dataset.match] and its [actual] the second card's
    [dataset.value], where an entry that is absent (or empty) reads as
    ["unknown"] and the record is made all the same.  When one of the
    two cards has no [dataset], reading it throws inside the [try]
    block: no record is made and no ["unknown"] is applied, the sink is
    not called, the task counter stays, and the failure is logged under
    the hook's name.  In both cases the failure does not reach the
    caller: the completion of the call is the original's. *)
Theorem incorrect_match_expected_actual
        (E : Env) (this : value) (w : World) gs (card1 card2 : Card) :
  gameState (host w) = Some gs ->
  flippedCards gs = Some [card1; card2] ->
  match card1, card2 with
  | Some d1, Some d2 =>
      exists label expected actual,
        taskRecords (emitted E this CallHandleIncorrectMatch w)
          = [RecordTask (currentLevelId w) (taskId (S (taskCounter w)))
                        label expected actual 0 0] /\
        (forall target, ds_match d1 = Some target -> target <> "" -> expected = target) /\
        (forall observed, ds_value d2 = Some observed -> observed <> "" ->
                          actual = observed) /\
        (ds_match d1 = None \/ ds_match d1 = Some "" -> expected = "unknown") /\
        (ds_value d2 = None \/ ds_value d2 = Some "" -> actual = "unknown")
  | _, _ =>
      taskRecords (emitted E this CallHandleIncorrectMatch w) = [] /\
      sinkCalls (emitted E this CallHandleIncorrectMatch w) = [] /\
      errorHooks (emitted E this CallHandleIncorrectMatch w) = ["handleIncorrectMatch"] /\
      taskCounter (snd (invoke E this CallHandleIncorrectMatch w)) = taskCounter w
  end /\
  (forall f,
      original E OpHandleIncorrectMatch = Some f ->
      fst (invoke E this CallHandleIncorrectMatch w) = fst (f this [] (host w))).
Proof.
  intros Hgs Hfc. split.
  - destruct card1 as [d1|]; [ destruct card2 as [d2|] | ].
    + exists ("Match: " ++ orUnknown (ds_value d1)),
             (orUnknown (ds_match d1)), (orUnknown (ds_value d2)).
      split; [ apply (incorrect_match_record E this w gs d1 d2 Hgs Hfc) | ].
      repeat split.
      * intros target -> Hne. apply orUnknown_present, Hne.
      * intros observed -> Hne. apply orUnknown_present, Hne.
      * intros [-> | ->]; reflexivity.
      * intros [-> | ->]; reflexivity.
    + open_world w. unfold_hooks. rewrite Hgs, Hfc.
      split_paths; new_events;
        cbv beta iota zeta delta [taskRecords sinkCalls errorHooks];
        cbn [flat_map app]; repeat split; reflexivity.
    + open_world w. unfold_hooks. rewrite Hgs, Hfc.
      split_paths; new_events;
        cbv beta iota zeta delta [taskRecords sinkCalls errorHooks];
        cbn [flat_map app]; repeat split; reflexivity.
  - intros f Hf.
    destruct (invoke_delegates E this CallHandleIncorrectMatch w f Hf)
      as (_ & _ & _ & _ & _ & _ & _ & Hr & _).
    exact Hr.
Qed.

(** First card declaring [A] as its match, second card showing [B]:
    [expected] is [A] and [actual] is [B]. *)
Lemma incorrect_match_expected_actual_witness :
  taskRecords (emitted samplePage VUndefined CallHandleIncorrectMatch (playing cardsAB 4))
    = [RecordTask (Some "campaign_level_3") "task_5" "Match: A" "A" "B" 0 0].
Proof.
  destruct (incorrect_match_expected_actual samplePage VUndefined (playing cardsAB 4)
              (mkGameState (Some cardsAB) (VNum 3) (VNum 12))
              (Some (mkDataset (Some "A") (Some "A")))
              (Some (mkDataset (Some "B") (Some "A")))
              eq_refl eq_refl)
    as ((label & expected & actual & Hrec & Hexp & Hact & _ & _) & _).
  rewrite Hrec.
  rewrite (Hexp "A" eq_refl ltac:(discriminate)),
          (Hact "B" eq_refl ltac:(discriminate)).
  vm_compute in Hrec. injection Hrec as <- _ _. reflexivity.
Defined.

(** C7 as stated fails for an item that cannot be read: with level 3
    running and three tasks recorded, an incorrect match whose second
    flipped card has no [dataset] hands no task record to the sink and
    applies no ["unknown"]; the hook only logs the [TypeError] and calls
    the original. *)
Lemma incorrect_match_without_dataset_records_nothing :
  emitted samplePage VUndefined CallHandleIncorrectMatch
          (playing [card (Some "A") (Some "B"); None] 3)
    = [EvError "handleIncorrectMatch"
               (TypeError "Cannot read properties of undefined (reading 'value')");
       EvOriginal OpHandleIncorrectMatch VUndefined []] /\
  taskRecords (emitted samplePage VUndefined CallHandleIncorrectMatch
                       (playing [card (Some "A") (Some "B"); None] 3)) = [] /\
  taskCounter (snd (invoke samplePage VUndefined CallHandleIncorrectMatch
                           (playing [card (Some "A") (Some "B"); None] 3))) = 3.
Proof.
  repeat split; vm_compute; reflexivity.
Qed.

(** ** Reports of a level outcome *)

Ltac read_trace :=
  cbv beta iota zeta delta [submissions endLevels noErrorLogged taskRecords taskIds];
  cbn [filter flat_map forallb isSubmit Datatypes.length app negb andb].


Section Outcomes.

Variable E : Env.



End Outcomes.

(** ** C2: submissions per outcome signal *)




(** ** C4: reported duration *)

Section Durations.

Variable E : Env.



End Durations.

Lemma endLevels_app (t u : list Event) :
  endLevels (t ++ u)%list = (endLevels t ++ endLevels u)%list.
Proof. unfold endLevels. apply flat_map_app. Qed.

Section OutcomeTimes.

Variable E : Env.

(** One [alert] wrapper: a timeout message makes it read the clock once
    and call [endLevel] with that reading; any other message does
    neither. *)
Lemma alert_layer_endLevels (message : value) (w : World) :
  endLevels (since (trace w) (trace (snd (tryCatch "alert" (alertBody E message) w))))
    = (if isTimeoutMessage message
       then [EndLevel (currentLevelId w) false
                      (minusStart (now E (clockReads w)) (levelStartTime w)) (VNum 0)]
       else []) /\
  clockReads (snd (tryCatch "alert" (alertBody E message) w))
    = clockReads w + (if isTimeoutMessage message then 1 else 0).
Proof.
  open_world w. unfold_hooks.
  cbv beta iota delta [messageIncludes isTimeoutMessage].
  destruct message as [ | | b | n | s]; [ | | | | destruct (includes "Time's Up" s) ];
    split_paths; new_events; read_trace; split; solve [ reflexivity | lia ].
Qed.

(** [n] stacked wrappers: every wrapper takes its own clock reading. *)
Lemma alertLayers_endLevels (n : nat) (this message : value) (w : World) :
  exists new,
    trace (snd (alertLayers E n this message w)) = (trace w ++ new)%list /\
    endLevels new
      = (if isTimeoutMessage message
         then map (fun j => EndLevel (currentLevelId w) false
                                     (minusStart (now E (clockReads w + j))
                                                 (levelStartTime w)) (VNum 0))
                  (seq 0 n)
         else []) /\
    clockReads (snd (alertLayers E n this message w))
      = clockReads w + (if isTimeoutMessage message then n else 0).
Proof.
  revert w. induction n as [|n IH]; intros w.
  - cbn [alertLayers seq map].
    destruct (isTimeoutMessage message); open_world w; unfold_hooks; split_paths;
      first [ eexists; split;
              [ reflexivity | read_trace; split; solve [ reflexivity | lia ] ]
            | exists []; rewrite app_nil_r; read_trace;
              split; [ reflexivity | split; solve [ reflexivity | lia ] ] ].
  - cbn [alertLayers]. unfold bind.
    destruct (alert_layer_endLevels message w) as (He & Hc).
    destruct (alert_layer_frame E message w) as (_ & _ & Hs & Hl).
    destruct (instr_tryCatch "alert" _ (instr_alertBody E message) w) as (pre & Ht & _).
    pose proof (tryCatch_normal "alert" (alertBody E message) w) as Hn.
    destruct (tryCatch "alert" (alertBody E message) w) as [r w1];
      cbn [fst snd] in *; subst r.
    rewrite Ht, since_app in He.
    destruct (IH w1) as (new & Ht' & He' & Hc').
    exists (pre ++ new)%list.
    rewrite Ht', Ht, <- app_assoc, endLevels_app, He, He', Hc', Hc, Hs, Hl.
    split; [ reflexivity | ].
    destruct (isTimeoutMessage message); [ | split; [ reflexivity | lia ] ].
    split; [ | lia ].
    cbn [seq map app]. rewrite Nat.add_0_r. f_equal.
    rewrite <- seq_shift, map_map. apply map_ext. intros j.
    replace (clockReads w + 1 + j) with (clockReads w + S j) by lia. reflexivity.
Qed.





End OutcomeTimes.




(** ** C8: timeout notifications *)

Lemma noErrorLogged_app (t u : list Event) :
  noErrorLogged (t ++ u)%list = noErrorLogged t && noErrorLogged u.
Proof. unfold noErrorLogged. apply forallb_app. Qed.

Section Notifications.

Variable E : Env.

(** One [alert] wrapper: a timeout message whose [try] block runs to the
    end submits one report; any other message reaches the sink not at
    all. *)
Lemma alert_layer_report (message : value) (w : World) :
  (isTimeoutMessage message = true ->
   noErrorLogged (since (trace w)
                        (trace (snd (tryCatch "alert" (alertBody E message) w)))) = true ->
   submissions (since (trace w)
                      (trace (snd (tryCatch "alert" (alertBody E message) w)))) = 1) /\
  (isTimeoutMessage message = false ->
   submissions (since (trace w)
                      (trace (snd (tryCatch "alert" (alertBody E message) w)))) = 0 /\
   endLevels (since (trace w)
                    (trace (snd (tryCatch "alert" (alertBody E message) w)))) = []).
Proof.
  open_world w. unfold_hooks. cbv beta iota delta [messageIncludes isTimeoutMessage].
  destruct message as [ | | b | n | s]; [ | | | | destruct (includes "Time's Up" s) ];
    split_paths; new_events; read_trace;
    (split; [ intros Ht Hno; solve [ reflexivity | discriminate ]
            | intros Ht; solve [ auto | discriminate ] ]).
Qed.

(** [n] stacked wrappers: a timeout message whose [try] blocks all run
    to the end submits [n] reports. *)
Lemma alertLayers_reports (n : nat) (this message : value) (w : World) :
  exists new,
    trace (snd (alertLayers E n this message w)) = (trace w ++ new)%list /\
    (isTimeoutMessage message = true -> noErrorLogged new = true ->
     submissions new = n) /\
    (isTimeoutMessage message = false ->
     submissions new = 0 /\ endLevels new = []).
Proof.
  revert w. induction n as [|n IH]; intros w.
  - cbn [alertLayers]. open_world w. unfold_hooks. split_paths.
    + eexists. split; [ reflexivity | ]. split; auto.
    + exists []. rewrite app_nil_r. auto.
  - cbn [alertLayers]. unfold bind.
    destruct (alert_layer_report message w) as (Hyes & Hno).
    destruct (instr_tryCatch "alert" _ (instr_alertBody E message) w) as (pre & Ht & _).
    pose proof (tryCatch_normal "alert" (alertBody E message) w) as Hn.
    destruct (tryCatch "alert" (alertBody E message) w) as [r w1];
      cbn [fst snd] in *; subst r.
    rewrite Ht, since_app in Hyes, Hno.
    destruct (IH w1) as (new & Ht' & Hyes' & Hno').
    exists (pre ++ new)%list.
    rewrite Ht', Ht, <- app_assoc, submissions_app, endLevels_app, noErrorLogged_app.
    split; [ reflexivity | ]. split.
    + intros Hm Hne. apply andb_prop in Hne as [Hne1 Hne2].
      rewrite (Hyes Hm Hne1), (Hyes' Hm Hne2). reflexivity.
    + intros Hm. destruct (Hno Hm) as [-> ->]. destruct (Hno' Hm) as [-> ->]. auto.
Qed.

(** A notification that is not a timeout message produces no report,
    however many wrappers [alert] carries. *)
Lemma other_notification_reports_nothing (this message : value) (w : World) :
  isTimeoutMessage message = false ->
  submissions (emitted E this (CallAlert message) w) = 0 /\
  endLevels (emitted E this (CallAlert message) w) = [].
Proof.
  intros Hm. unfold emitted. cbn [invoke]. unfold alert.
  destruct (alertLayers_reports (alertHooks w) this message w) as (new & Ht & _ & Hno).
  rewrite Ht, since_app. apply Hno, Hm.
Qed.

(** A timeout message whose instrumentation never fails produces as many
    reports as [startTimer] has been called. *)
Lemma timeout_notification_reports_per_timer (this message : value) (w : World) :
  isTimeoutMessage message = true ->
  noErrorLogged (emitted E this (CallAlert message) w) = true ->
  submissions (emitted E this (CallAlert message) w) = alertHooks w.
Proof.
  intros Hm. unfold emitted. cbn [invoke]. unfold alert.
  destruct (alertLayers_reports (alertHooks w) this message w) as (new & Ht & Hyes & _).
  rewrite Ht, since_app. apply Hyes, Hm.
Qed.

End Notifications.

(** C8 fails once [startTimer] has been called twice.  On the sample
    page, with level 3 running, two timers are started and the host then
    shows ["Time's Up!"]: [alert] carries two wrappers, each of them
    reports the failure, and two reports are submitted for the one
    notification; the host's [alert] is still called once with the
    message.  After a single [startTimer] the same notification submits
    one report, and ["Great job!"] none. *)
Theorem timeout_after_two_timers_reports_twice :
  alertHooks (run samplePage twoTimers (playing cardsAB 2)) = 2 /\
  emitted samplePage (VStr "window") (CallAlert (VStr "Time's Up!"))
          (run samplePage twoTimers (playing cardsAB 2))
    = [EvSink (EndLevel (Some "campaign_level_3") false 500 (VNum 0));
       EvSink (AddRawMetric "reason" "timeout");
       EvSink (AddRawMetric "turns" "12");
       EvSink SubmitReport;
       EvLog "[Analytics] Level Failed: campaign_level_3, Reason: Timeout";
       EvLog "[Analytics] Report submitted";
       EvSink (EndLevel (Some "campaign_level_3") false 1000 (VNum 0));
       EvSink (AddRawMetric "reason" "timeout");
       EvSink (AddRawMetric "turns" "12");
       EvSink SubmitReport;
       EvLog "[Analytics] Level Failed: campaign_level_3, Reason: Timeout";
       EvLog "[Analytics] Report submitted";
       EvOriginal OpAlert (VStr "window") [VStr "Time's Up!"]] /\
  submissions (emitted samplePage (VStr "window") (CallAlert (VStr "Time's Up!"))
                       (run samplePage twoTimers (playing cardsAB 2))) = 2 /\
  submissions (emitted samplePage (VStr "window") (CallAlert (VStr "Time's Up!"))
                       (step samplePage (Invoke VUndefined (CallStartTimer (VNum 60)))
                             (playing cardsAB 2))) = 1 /\
  submissions (emitted samplePage (VStr "window") (CallAlert (VStr "Great job!"))
                       (run samplePage twoTimers (playing cardsAB 2))) = 0.
Proof.
  repeat split; vm_compute; reflexivity.
Qed.

(** ** Further properties of the hooks *)

(** Evaluate the readers of a trace on the events of one path. *)
Ltac read_events :=
  cbv beta iota zeta delta
      [submissions endLevels noErrorLogged taskRecords taskIds sinkCalls
       errorHooks consoleLines installs];
  cbn [filter flat_map forallb isSubmit Datatypes.length app negb andb].

(** Use the recorded answer of the sink on the remaining tests. *)
Ltac use_sink :=
  repeat match goal with
         | H : sink _ _ _ = _ |- _ => rewrite H
         end.

Lemma toStringMethod_display (v : value) (s : string) :
  toStringMethod v = Normal s -> s = display v.
Proof. destruct v; cbn; intros H; congruence. Qed.

Section LevelStart.

Variable E : Env.

(** X1. A level start stores the level identity, the start time and a
    task counter of [0] before it talks to the sink, and makes exactly
    one sink call, [startLevel] with the new identity.  When that call
    throws, the three variables keep their new values, the error is
    logged once under the hook's name and the start is not announced on
    the console. *)
Theorem level_start_stored_before_sink (this : value) (c : Call) (w : World) :
  isStartCall c = true ->
  sinkCalls (emitted E this c w) = [StartLevel (levelIdOf c)] /\
  currentLevelId (snd (invoke E this c w)) = levelIdOf c /\
  levelStartTime (snd (invoke E this c w)) = Some (now E (clockReads w)) /\
  taskCounter (snd (invoke E this c w)) = 0 /\
  errorHooks (emitted E this c w)
    = match sink E (trace w) (StartLevel (levelIdOf c)) with
      | Some _ => [hookName c]
      | None => []
      end /\
  Datatypes.length (consoleLines (emitted E this c w))
    = match sink E (trace w) (StartLevel (levelIdOf c)) with
      | Some _ => 0
      | None => 1
      end.
Proof.
  destruct c; try discriminate; intros _; cbn [levelIdOf hookName];
    open_world w; unfold_hooks; split_paths; new_events; read_events;
    repeat split; reflexivity.
Qed.

End LevelStart.

Lemma level_start_stored_before_sink_witness :
  currentLevelId (snd (invoke brokenSinkPage VUndefined (CallStartGame (VNum 4))
                              (playing cardsAB 6))) = Some "campaign_level_4" /\
  taskCounter (snd (invoke brokenSinkPage VUndefined (CallStartGame (VNum 4))
                           (playing cardsAB 6))) = 0 /\
  errorHooks (emitted brokenSinkPage VUndefined (CallStartGame (VNum 4))
                      (playing cardsAB 6)) = ["startGame"].
Proof.
  destruct (level_start_stored_before_sink brokenSinkPage VUndefined
              (CallStartGame (VNum 4)) (playing cardsAB 6) eq_refl)
    as (_ & Hid & _ & Hcount & Herr & _).
  split; [ exact Hid | split; [ exact Hcount | exact Herr ] ].
Defined.

Section MatchEdges.

Variable E : Env.

(** X2. When [flippedCards] is falsy or does not hold exactly two cards,
    a match hook does nothing before it delegates: no sink call, no
    console output, no error report, and the task counter keeps its
    value. *)
Theorem match_hook_skips_unless_two_cards
        (this : value) (c : Call) (w : World) gs :
  isMatchCall c = true ->
  gameState (host w) = Some gs ->
  (flippedCards gs = None \/
   exists cards, flippedCards gs = Some cards /\ Datatypes.length cards <> 2) ->
  sinkCalls (emitted E this c w) = [] /\
  errorHooks (emitted E this c w) = [] /\
  consoleLines (emitted E this c w) = [] /\
  taskCounter (snd (invoke E this c w)) = taskCounter w.
Proof.
  intros Hc Hgs Hcards.
  assert (Hshape : flippedCards gs = None \/ flippedCards gs = Some [] \/
                   (exists a, flippedCards gs = Some [a]) \/
                   (exists a b d rest, flippedCards gs = Some (a :: b :: d :: rest))).
  { destruct Hcards as [Hn | (cards & Hl & Hlen)]; [ auto | ].
    destruct cards as [|a [|b [|d rest]]]; eauto 10.
    cbn in Hlen. congruence. }
  destruct c; try discriminate; open_world w;
    destruct Hshape as [Hf | [Hf | [(a & Hf) | (a & b & d & rest & Hf)]]];
    unfold_hooks; rewrite Hgs, Hf;
    split_paths; new_events; read_events; repeat split; reflexivity.
Qed.

(** X3. When [window.gameState] is missing, or one of the two flipped
    cards has no [dataset], a match hook records no task and uses no
    ["unknown"] default: the failure is logged once under the hook's
    name, the sink is not called and the task counter keeps its
    value. *)
Theorem match_hook_unreadable_card_records_nothing
        (this : value) (c : Call) (w : World) :
  isMatchCall c = true ->
  (gameState (host w) = None \/
   exists gs card1 card2,
     gameState (host w) = Some gs /\
     flippedCards gs = Some [card1; card2] /\
     (card1 = None \/ card2 = None)) ->
  sinkCalls (emitted E this c w) = [] /\
  errorHooks (emitted E this c w) = [hookName c] /\
  consoleLines (emitted E this c w) = [] /\
  taskCounter (snd (invoke E this c w)) = taskCounter w.
Proof.
  intros Hc Hbad.
  destruct c; try discriminate; cbn [hookName]; open_world w;
    (destruct Hbad as [Hgs | (gs & card1 & card2 & Hgs & Hf & [-> | ->])];
     unfold_hooks; rewrite Hgs; try rewrite Hf;
     split_paths; new_events; read_events; repeat split; reflexivity).
Qed.

(** X4. With two readable cards a match hook advances the task counter
    before it calls the sink: the counter is one higher afterwards
    whether or not [recordTask] throws.  When it throws, the number is
    used up all the same, the error is logged under the hook's name and
    the "Task Recorded" line is not written. *)
Theorem failed_record_uses_up_task_number
        (this : value) (c : Call) (w : World) gs d1 d2 :
  isMatchCall c = true ->
  gameState (host w) = Some gs ->
  flippedCards gs = Some [Some d1; Some d2] ->
  taskCounter (snd (invoke E this c w)) = S (taskCounter w) /\
  exists record,
    sinkCalls (emitted E this c w) = [record] /\
    taskRecords (emitted E this c w) = [record] /\
    errorHooks (emitted E this c w)
      = match sink E (trace w) record with
        | Some _ => [hookName c]
        | None => []
        end /\
    Datatypes.length (consoleLines (emitted E this c w))
      = match sink E (trace w) record with
        | Some _ => 0
        | None => 1
        end.
Proof.
  intros Hc Hgs Hf.
  destruct c; try discriminate; cbn [hookName]; open_world w;
    unfold_hooks; rewrite Hgs, Hf;
    split_paths; new_events; read_events;
    (split; [ reflexivity | eexists; split; [ reflexivity | ] ]);
    use_sink; repeat split; reflexivity.
Qed.

End MatchEdges.

Lemma match_hook_skips_unless_two_cards_witness :
  sinkCalls (emitted samplePage VUndefined CallHandleCorrectMatch
                     (playing [card (Some "A") None] 3)) = [] /\
  taskCounter (snd (invoke samplePage VUndefined CallHandleCorrectMatch
                           (playing [card (Some "A") None] 3))) = 3.
Proof.
  destruct (match_hook_skips_unless_two_cards samplePage VUndefined
              CallHandleCorrectMatch (playing [card (Some "A") None] 3)
              (mkGameState (Some [card (Some "A") None]) (VNum 3) (VNum 12))
              eq_refl eq_refl)
    as (Hsink & _ & _ & Hcount).
  - right. exists [card (Some "A") None]. split; [ reflexivity | discriminate ].
  - split; [ exact Hsink | exact Hcount ].
Defined.

Lemma match_hook_unreadable_card_records_nothing_witness :
  sinkCalls (emitted samplePage VUndefined CallHandleIncorrectMatch
                     (playing [card (Some "A") (Some "B"); None] 3)) = [] /\
  errorHooks (emitted samplePage VUndefined CallHandleIncorrectMatch
                      (playing [card (Some "A") (Some "B"); None] 3))
    = ["handleIncorrectMatch"].
Proof.
  destruct (match_hook_unreadable_card_records_nothing samplePage VUndefined
              CallHandleIncorrectMatch
              (playing [card (Some "A") (Some "B"); None] 3) eq_refl)
    as (Hsink & Herr & _ & _).
  - right.
    exists (mkGameState (Some [card (Some "A") (Some "B"); None]) (VNum 3) (VNum 12)),
           (card (Some "A") (Some "B")), None.
    repeat split; auto.
  - split; [ exact Hsink | exact Herr ].
Defined.

Lemma failed_record_uses_up_task_number_witness :
  taskCounter (snd (invoke brokenSinkPage VUndefined CallHandleCorrectMatch
                           (playing cardsAB 3))) = 4.
Proof.
  destruct (failed_record_uses_up_task_number brokenSinkPage VUndefined
              CallHandleCorrectMatch (playing cardsAB 3)
              (mkGameState (Some cardsAB) (VNum 3) (VNum 12))
              (mkDataset (Some "A") (Some "A")) (mkDataset (Some "B") (Some "A"))
              eq_refl eq_refl eq_refl) as (Hcount & _).
  exact Hcount.
Defined.

(** Replace the strings obtained from [toString()] by what they are. *)
Ltac name_strings :=
  repeat match goal with
         | H : toStringMethod _ = Normal _ |- _ =>
             apply toStringMethod_display in H; subst
         end.

Section Reports.

Variable E : Env.

(** X5. A report submitted by the campaign-win hook is complete:
    whenever the hook calls [submitReport], it has called before it, in
    this order, [endLevel] with success, the duration and the XP, and
    [addRawMetric] for [level], [turns], [xp_earned], [stars] and [mode
    = campaign], and nothing else.  XP and stars are what the host's
    calculators return for the level and the turn count, and [0] where
    the host has no such calculator. *)
Theorem campaign_win_report_contents (this : value) (w : World) gs :
  gameState (host w) = Some gs ->
  submissions (emitted E this CallHandleCampaignWin w) = 1 ->
  exists xp stars,
    sinkCalls (emitted E this CallHandleCampaignWin w)
      = [EndLevel (currentLevelId w) true
                  (minusStart (now E (clockReads w)) (levelStartTime w)) xp;
         AddRawMetric "level" (display (currentCampaignLevel gs));
         AddRawMetric "turns" (display (turns gs));
         AddRawMetric "xp_earned" (display xp);
         AddRawMetric "stars" (display stars);
         AddRawMetric "mode" "campaign";
         SubmitReport] /\
    match calculateXP (host w) with
    | Some f => f (currentCampaignLevel gs) (turns gs) = Normal xp
    | None => xp = VNum 0
    end /\
    match calculateCampaignStars (host w) with
    | Some f => f (currentCampaignLevel gs) (turns gs) = Normal stars
    | None => stars = VNum 0
    end.
Proof.
  intros Hgs. open_world w. unfold_hooks. repeat (rewrite Hgs; unfold_hooks).
  split_paths; new_events; read_events; intros Hno; try discriminate Hno;
    name_strings; do 2 eexists; (split; [ reflexivity | ]); split;
    solve [ reflexivity | assumption ].
Qed.

(** X6. A report submitted at the end of reflex mode is complete:
    whenever the hook calls [submitReport], it has called before it
    [endLevel] with success, the duration and an XP of [0], and
    [addRawMetric] for [moves], [stars] and [mode = reflex], and nothing
    else; stars come from the host's reflex calculator, [0] without one,
    and the XP calculator is not consulted. *)
Theorem reflex_end_report_contents (this : value) (w : World) gs :
  gameState (host w) = Some gs ->
  submissions (emitted E this CallHandleReflexModeEnd w) = 1 ->
  exists stars,
    sinkCalls (emitted E this CallHandleReflexModeEnd w)
      = [EndLevel (currentLevelId w) true
                  (minusStart (now E (clockReads w)) (levelStartTime w)) (VNum 0);
         AddRawMetric "moves" (display (turns gs));
         AddRawMetric "stars" (display stars);
         AddRawMetric "mode" "reflex";
         SubmitReport] /\
    match calculateReflexStars (host w) with
    | Some f => f (turns gs) = Normal stars
    | None => stars = VNum 0
    end.
Proof.
  intros Hgs. open_world w. unfold_hooks. repeat (rewrite Hgs; unfold_hooks).
  split_paths; new_events; read_events; intros Hno; try discriminate Hno;
    name_strings; eexists; (split; [ reflexivity | ]);
    solve [ reflexivity | assumption ].
Qed.

(** X7. A campaign win while [gameState.currentCampaignLevel] is
    [undefined] or [null] never completes a report: the sink receives
    nothing, or [endLevel] alone; no metric is added, nothing is
    submitted, and the failure is logged once. *)
Theorem campaign_win_without_level_submits_nothing (this : value) (w : World) gs :
  gameState (host w) = Some gs ->
  currentCampaignLevel gs = VUndefined \/ currentCampaignLevel gs = VNull ->
  (sinkCalls (emitted E this CallHandleCampaignWin w) = [] \/
   exists xp,
     sinkCalls (emitted E this CallHandleCampaignWin w)
       = [EndLevel (currentLevelId w) true
                   (minusStart (now E (clockReads w)) (levelStartTime w)) xp]) /\
  submissions (emitted E this CallHandleCampaignWin w) = 0 /\
  errorHooks (emitted E this CallHandleCampaignWin w) = ["handleCampaignWin"].
Proof.
  intros Hgs Hlevel. open_world w. unfold_hooks.
  repeat (rewrite Hgs; unfold_hooks).
  destruct Hlevel as [-> | ->]; cbv beta iota delta [toStringMethod];
    split_paths; new_events; read_events;
    (split; [ solve [ left; reflexivity | right; eexists; reflexivity ]
            | split; reflexivity ]).
Qed.

(** X8. A report submitted for a timeout notification that passes one
    [alert] wrapper is a complete failure report: before [submitReport]
    the wrapper has called [endLevel] without success, with the duration
    and an XP of [0], and [addRawMetric] for [reason = timeout] and
    [turns], and nothing else. *)
Theorem timeout_report_contents (this message : value) (w : World) gs :
  isOutcome (CallAlert message) w = true ->
  gameState (host w) = Some gs ->
  submissions (emitted E this (CallAlert message) w) = 1 ->
  sinkCalls (emitted E this (CallAlert message) w)
    = [EndLevel (currentLevelId w) false
                (minusStart (now E (clockReads w)) (levelStartTime w)) (VNum 0);
       AddRawMetric "reason" "timeout";
       AddRawMetric "turns" (display (turns gs));
       SubmitReport].
Proof.
  cbn [isOutcome]. intros Ho Hgs.
  apply andb_prop in Ho as [Hm Hl]. apply Nat.eqb_eq in Hl.
  destruct message; try discriminate. cbn [isTimeoutMessage] in Hm.
  unfold emitted. cbn [invoke]. unfold alert. rewrite Hl. cbn [alertLayers].
  open_world w. unfold_hooks. cbv beta iota delta [messageIncludes].
  rewrite Hm. unfold_hooks.
  split_paths; new_events; read_events; intros Hno; try discriminate Hno;
    name_strings; congruence.
Qed.

(** X18. When a calculator of the host throws while a campaign win is
    being reported, the win does not reach the sink at all: [endLevel]
    is called only after XP and stars have been computed, so the sink
    receives no call, and the failure is logged once. *)
Theorem failing_calculator_drops_win_report (this : value) (w : World) gs :
  gameState (host w) = Some gs ->
  ((exists f e, calculateXP (host w) = Some f /\
                f (currentCampaignLevel gs) (turns gs) = Abrupt e) \/
   (exists f e, calculateCampaignStars (host w) = Some f /\
                f (currentCampaignLevel gs) (turns gs) = Abrupt e)) ->
  sinkCalls (emitted E this CallHandleCampaignWin w) = [] /\
  errorHooks (emitted E this CallHandleCampaignWin w) = ["handleCampaignWin"].
Proof.
  intros Hgs Hcalc. open_world w. unfold_hooks.
  repeat (rewrite Hgs; unfold_hooks).
  destruct Hcalc as [(f & e & Hf & He) | (f & e & Hf & He)];
    split_paths; new_events; read_events;
    solve [ split; reflexivity | congruence ].
Qed.

End Reports.

Lemma campaign_win_report_contents_witness :
  sinkCalls (emitted samplePage VUndefined CallHandleCampaignWin (playing cardsAB 2))
    = [EndLevel (Some "campaign_level_3") true 500 (VNum 50);
       AddRawMetric "level" "3"; AddRawMetric "turns" "12";
       AddRawMetric "xp_earned" "50"; AddRawMetric "stars" "0";
       AddRawMetric "mode" "campaign"; SubmitReport].
Proof.
  destruct (campaign_win_report_contents samplePage VUndefined (playing cardsAB 2)
              (mkGameState (Some cardsAB) (VNum 3) (VNum 12)) eq_refl)
    as (xp & stars & Hcalls & Hxp & Hstars).
  - vm_compute. reflexivity.
  - cbn in Hxp, Hstars. injection Hxp as <-. subst stars. exact Hcalls.
Defined.

Lemma reflex_end_report_contents_witness :
  sinkCalls (emitted samplePage VUndefined CallHandleReflexModeEnd (playing cardsAB 2))
    = [EndLevel (Some "campaign_level_3") true 500 (VNum 0);
       AddRawMetric "moves" "12"; AddRawMetric "stars" "0";
       AddRawMetric "mode" "reflex"; SubmitReport].
Proof.
  destruct (reflex_end_report_contents samplePage VUndefined (playing cardsAB 2)
              (mkGameState (Some cardsAB) (VNum 3) (VNum 12)) eq_refl)
    as (stars & Hcalls & Hstars).
  - vm_compute. reflexivity.
  - cbn in Hstars. subst stars. exact Hcalls.
Defined.

Lemma campaign_win_without_level_submits_nothing_witness :
  submissions (emitted samplePage VUndefined CallHandleCampaignWin
                       (mkWorld (Some 1000%Z) (Some "reflex_mode") 0 0 1
                                (mkHostState
                                   (Some (mkGameState None VUndefined (VNum 9)))
                                   None None None) [])) = 0.
Proof.
  destruct (campaign_win_without_level_submits_nothing samplePage VUndefined
              (mkWorld (Some 1000%Z) (Some "reflex_mode") 0 0 1
                       (mkHostState
                          (Some (mkGameState None VUndefined (VNum 9)))
                          None None None) [])
              (mkGameState None VUndefined (VNum 9)) eq_refl (or_introl eq_refl))
    as (_ & Hsub & _).
  exact Hsub.
Defined.

Lemma timeout_report_contents_witness :
  sinkCalls (emitted samplePage VUndefined (CallAlert (VStr "Time's Up!"))
                     (step samplePage (Invoke VUndefined (CallStartTimer (VNum 60)))
                           (playing cardsAB 2)))
    = [EndLevel (Some "campaign_level_3") false 500 (VNum 0);
       AddRawMetric "reason" "timeout"; AddRawMetric "turns" "12"; SubmitReport].
Proof.
  apply (timeout_report_contents samplePage VUndefined (VStr "Time's Up!")
           (step samplePage (Invoke VUndefined (CallStartTimer (VNum 60)))
                 (playing cardsAB 2))
           (mkGameState (Some cardsAB) (VNum 3) (VNum 12)));
    vm_compute; reflexivity.
Defined.

Section AlertWrappers.

Variable E : Env.

(** One wrapper given a message that is not a string: the [includes]
    call throws, which is logged, and nothing else happens. *)
Lemma alert_layer_non_string (message : value) (w : World) :
  (forall s, message <> VStr s) ->
  sinkCalls (since (trace w) (trace (snd (tryCatch "alert" (alertBody E message) w)))) = [] /\
  errorHooks (since (trace w) (trace (snd (tryCatch "alert" (alertBody E message) w))))
    = ["alert"].
Proof.
  intros Hns. open_world w. unfold_hooks. cbv beta iota delta [messageIncludes].
  destruct message as [ | | b | n | s]; [ | | | | destruct (Hns s eq_refl) ];
    new_events; read_events; split; reflexivity.
Qed.

Lemma sinkCalls_app (t u : list Event) :
  sinkCalls (t ++ u)%list = (sinkCalls t ++ sinkCalls u)%list.
Proof. unfold sinkCalls. apply flat_map_app. Qed.

Lemma errorHooks_app (t u : list Event) :
  errorHooks (t ++ u)%list = (errorHooks t ++ errorHooks u)%list.
Proof. unfold errorHooks. apply flat_map_app. Qed.

Lemma alertLayers_non_string (n : nat) (this message : value) (w : World) :
  (forall s, message <> VStr s) ->
  exists new,
    trace (snd (alertLayers E n this message w)) = (trace w ++ new)%list /\
    sinkCalls new = [] /\
    errorHooks new = repeat "alert" n.
Proof.
  intros Hns. revert w. induction n as [|n IH]; intros w.
  - cbn [alertLayers]. open_world w. unfold_hooks. split_paths.
    + eexists. split; [ reflexivity | ]. split; reflexivity.
    + exists []. rewrite app_nil_r. auto.
  - cbn [alertLayers]. unfold bind.
    destruct (alert_layer_non_string message w Hns) as (Hs & He).
    destruct (instr_tryCatch "alert" _ (instr_alertBody E message) w) as (pre & Ht & _).
    pose proof (tryCatch_normal "alert" (alertBody E message) w) as Hn.
    destruct (tryCatch "alert" (alertBody E message) w) as [r w1];
      cbn [fst snd] in *; subst r.
    rewrite Ht, since_app in Hs, He.
    destruct (IH w1) as (new & Ht' & Hs' & He').
    exists (pre ++ new)%list.
    rewrite Ht', Ht, <- app_assoc, sinkCalls_app, errorHooks_app, Hs, Hs', He, He'.
    auto.
Qed.

End AlertWrappers.

(** X9. A notification whose message is not a string (so that
    [message.includes] cannot be called) is still shown: every [alert]
    wrapper logs the failure and passes the call on, the sink is not
    called, and the host's [alert] receives the same [this] and message
    and its completion is returned. *)
Theorem non_string_notification_is_forwarded
        (E : Env) (this message : value) (w : World) f :
  (forall s, message <> VStr s) ->
  original E OpAlert = Some f ->
  sinkCalls (emitted E this (CallAlert message) w) = [] /\
  errorHooks (emitted E this (CallAlert message) w) = repeat "alert" (alertHooks w) /\
  In (EvOriginal OpAlert this [message]) (emitted E this (CallAlert message) w) /\
  fst (invoke E this (CallAlert message) w) = fst (f this [message] (host w)).
Proof.
  intros Hns Hf.
  destruct (invoke_delegates E this (CallAlert message) w f Hf)
    as (pre & post & Ht & _ & _ & _ & _ & Hr & _).
  unfold emitted in *. cbn [invoke opOf argsOf] in *. unfold alert in *.
  destruct (alertLayers_non_string E (alertHooks w) this message w Hns)
    as (new & Ht' & Hs & He).
  rewrite Ht', since_app. repeat split; auto.
  rewrite Ht in Ht'. apply app_inv_head in Ht'. rewrite <- Ht'.
  apply in_or_app. right. left. reflexivity.
Qed.

Lemma non_string_notification_is_forwarded_witness :
  errorHooks (emitted samplePage VUndefined (CallAlert (VNum 42))
                      (run samplePage twoTimers (playing cardsAB 2)))
    = ["alert"; "alert"] /\
  fst (invoke samplePage VUndefined (CallAlert (VNum 42))
              (run samplePage twoTimers (playing cardsAB 2))) = Normal (VNum 7).
Proof.
  destruct (non_string_notification_is_forwarded samplePage VUndefined (VNum 42)
              (run samplePage twoTimers (playing cardsAB 2)) (returns (VNum 7)))
    as (_ & Herr & _ & Hres).
  - intros s. discriminate.
  - reflexivity.
  - split; [ exact Herr | exact Hres ].
Defined.

Lemma failing_calculator_drops_win_report_witness :
  sinkCalls (emitted samplePage VUndefined CallHandleCampaignWin
                     (mkWorld (Some 1000%Z) (Some "campaign_level_3") 2 0 1
                              failingXpHost [])) = [] /\
  errorHooks (emitted samplePage VUndefined CallHandleCampaignWin
                      (mkWorld (Some 1000%Z) (Some "campaign_level_3") 2 0 1
                               failingXpHost [])) = ["handleCampaignWin"].
Proof.
  apply (failing_calculator_drops_win_report samplePage VUndefined
           (mkWorld (Some 1000%Z) (Some "campaign_level_3") 2 0 1 failingXpHost [])
           (mkGameState (Some cardsAB) (VNum 3) (VNum 12)) eq_refl).
  left. eexists. eexists. split; reflexivity.
Defined.

(** ** Stacking of [alert] wrappers *)

Section Stacking.

Variable E : Env.

Lemma alertLayers_keep_hooks (n : nat) (this message : value) (w : World) :
  alertHooks (snd (alertLayers E n this message w)) = alertHooks w.
Proof.
  revert w. induction n as [|n IH]; intros w.
  - cbn [alertLayers]. open_world w. unfold_hooks. split_paths; reflexivity.
  - cbn [alertLayers]. unfold bind.
    destruct (instr_tryCatch "alert" _ (instr_alertBody E message) w)
      as (pre & _ & _ & _ & Ha).
    pose proof (tryCatch_normal "alert" (alertBody E message) w) as Hn.
    destruct (tryCatch "alert" (alertBody E message) w) as [r w1];
      cbn [fst snd] in *; subst r.
    rewrite IH. exact Ha.
Qed.

Lemma call_alertHooks (this : value) (c : Call) (w : World) :
  alertHooks (snd (invoke E this c w)) = alertHooks w + wrappersAdded E this c w.
Proof.
  destruct c; cbn [wrappersAdded].
  1-7: open_world w; unfold_hooks; split_paths; lia.
  cbn [invoke]. unfold alert. rewrite alertLayers_keep_hooks. lia.
Qed.

End Stacking.

(** X10. [startTimer] wraps [window.alert] once more on every call on
    which its original returns normally, whatever wrappers are already
    there, and leaves it alone when the original throws; level identity,
    start time and task counter are not touched, and the completion of
    the original is the completion of the call. *)
Theorem timer_start_stacks_one_wrapper
        (E : Env) (this duration : value) (w : World) f :
  original E OpStartTimer = Some f ->
  alertHooks (snd (invoke E this (CallStartTimer duration) w))
    = alertHooks w + match fst (f this [duration] (host w)) with
                     | Normal _ => 1
                     | Abrupt _ => 0
                     end /\
  installs (emitted E this (CallStartTimer duration) w)
    = match fst (f this [duration] (host w)) with
      | Normal _ => [OpAlert]
      | Abrupt _ => []
      end /\
  sinkCalls (emitted E this (CallStartTimer duration) w) = [] /\
  levelStartTime (snd (invoke E this (CallStartTimer duration) w)) = levelStartTime w /\
  currentLevelId (snd (invoke E this (CallStartTimer duration) w)) = currentLevelId w /\
  taskCounter (snd (invoke E this (CallStartTimer duration) w)) = taskCounter w /\
  fst (invoke E this (CallStartTimer duration) w) = fst (f this [duration] (host w)).
Proof.
  intros Hf. open_world w. unfold_hooks. rewrite Hf.
  split_paths; new_events; read_events; repeat split; solve [ reflexivity | lia ].
Qed.

Lemma timer_start_stacks_one_wrapper_witness :
  alertHooks (snd (invoke samplePage VUndefined (CallStartTimer (VNum 30))
                          (run samplePage twoTimers (playing cardsAB 2)))) = 3.
Proof.
  destruct (timer_start_stacks_one_wrapper samplePage VUndefined (VNum 30)
              (run samplePage twoTimers (playing cardsAB 2)) (returns (VNum 7))
              eq_refl) as (Hhooks & _).
  exact Hhooks.
Defined.

(** X11. The wrappers on [window.alert] are never taken off: over any
    run their number does not decrease, and it stays the same when no
    timer is started; no level start, match, outcome or notification
    changes it. *)
Theorem alert_wrappers_never_removed
        (E : Env) (evs : list HostEvent) (w : World) :
  alertHooks w <= alertHooks (run E evs w) /\
  (noTimerStart evs = true -> alertHooks (run E evs w) = alertHooks w).
Proof.
  revert w. induction evs as [|ev evs IH]; intros w; cbn [run].
  - auto.
  - destruct (IH (step E ev w)) as (Hle & Heq).
    destruct ev as [this c | f]; cbn [step noTimerStart forallb] in *.
    + rewrite (call_alertHooks E this c w) in Hle, Heq.
      split; [ lia | ].
      intros Hnt. apply andb_prop in Hnt as [Hc Hnt].
      rewrite (Heq Hnt). destruct c; try discriminate; cbn [wrappersAdded]; lia.
    + cbn [alertHooks] in *. split; [ exact Hle | ].
      intros Hnt. apply Heq. exact Hnt.
Qed.

Lemma alert_wrappers_never_removed_witness :
  alertHooks (run samplePage (sampleMatches ++ winTwice)
                  (run samplePage twoTimers (playing cardsAB 2))) = 2.
Proof.
  destruct (alert_wrappers_never_removed samplePage (sampleMatches ++ winTwice)
              (run samplePage twoTimers (playing cardsAB 2))) as (_ & Hsame).
  rewrite (Hsame eq_refl). vm_compute. reflexivity.
Defined.

(** ** What an outcome leaves behind *)

(** X12. A campaign win, the end of reflex mode and a notification
    (timeout or not, through any number of wrappers) leave the level
    identity, the start time and the task counter as they were: the
    script never marks a level as ended, and a match resolved after the
    outcome continues the numbering of the same level. *)
Theorem outcome_keeps_level_state
        (E : Env) (this : value) (c : Call) (w : World) :
  isEndCall c = true ->
  currentLevelId (snd (invoke E this c w)) = currentLevelId w /\
  levelStartTime (snd (invoke E this c w)) = levelStartTime w /\
  taskCounter (snd (invoke E this c w)) = taskCounter w /\
  taskIds (emitted E this c w) = [].
Proof.
  destruct c; try discriminate; intros _.
  1-2: open_world w; unfold_hooks; split_paths; new_events; read_events;
       repeat split; reflexivity.
  unfold emitted. cbn [invoke]. unfold alert.
  destruct (alertLayers_frame E (alertHooks w) this message w)
    as (new & Ht & Hi & Hc & Hs & Hl).
  rewrite Ht, since_app. auto.
Qed.

Lemma outcome_keeps_level_state_witness :
  taskCounter (snd (invoke samplePage VUndefined CallHandleCampaignWin
                           (playing cardsAB 2))) = 2 /\
  taskIds (emitted samplePage VUndefined CallHandleCorrectMatch
                   (snd (invoke samplePage VUndefined CallHandleCampaignWin
                                (playing cardsAB 2)))) = ["task_3"].
Proof.
  destruct (outcome_keeps_level_state samplePage VUndefined CallHandleCampaignWin
              (playing cardsAB 2) eq_refl) as (_ & _ & Hcount & _).
  split; [ exact Hcount | vm_compute; reflexivity ].
Defined.

(** ** Error reports *)

Section ErrorReports.

Variable E : Env.

Lemma alert_layer_errors (message : value) (w : World) :
  errorHooks (since (trace w) (trace (snd (tryCatch "alert" (alertBody E message) w)))) = [] \/
  errorHooks (since (trace w) (trace (snd (tryCatch "alert" (alertBody E message) w))))
    = ["alert"].
Proof.
  open_world w. unfold_hooks. split_paths; new_events; read_events;
    solve [ left; reflexivity | right; reflexivity ].
Qed.

Lemma alertLayers_errors (n : nat) (this message : value) (w : World) :
  exists new k,
    trace (snd (alertLayers E n this message w)) = (trace w ++ new)%list /\
    errorHooks new = repeat "alert" k /\ k <= n.
Proof.
  revert w. induction n as [|n IH]; intros w.
  - cbn [alertLayers]. open_world w. unfold_hooks. split_paths.
    + eexists. exists 0. split; [ reflexivity | ]. split; [ reflexivity | lia ].
    + exists [], 0. rewrite app_nil_r. auto.
  - cbn [alertLayers]. unfold bind.
    pose proof (alert_layer_errors message w) as He.
    destruct (instr_tryCatch "alert" _ (instr_alertBody E message) w) as (pre & Ht & _).
    pose proof (tryCatch_normal "alert" (alertBody E message) w) as Hn.
    destruct (tryCatch "alert" (alertBody E message) w) as [r w1];
      cbn [fst snd] in *; subst r.
    rewrite Ht, since_app in He.
    destruct (IH w1) as (new & k & Ht' & He' & Hk).
    destruct He as [He | He].
    + exists (pre ++ new)%list, k.
      rewrite Ht', Ht, <- app_assoc, errorHooks_app, He, He'.
      split; [ reflexivity | ]. split; [ reflexivity | lia ].
    + exists (pre ++ new)%list, (S k).
      rewrite Ht', Ht, <- app_assoc, errorHooks_app, He, He'.
      split; [ reflexivity | ]. split; [ reflexivity | lia ].
Qed.

End ErrorReports.

(** X13. A hook reports on the console exactly the failures of its own
    [try] block.  For the six load-time hooks that have one, and for a
    notification that passes one [alert] wrapper, [console.error] is
    called when and only when the [try] block raised, and then once,
    with the hook's own name and the exception raised.  In general one
    call logs at most one error per [try] block it runs ([startTimer]
    none, a notification at most one per [alert] wrapper), and never
    under another hook's name. *)
Theorem errors_logged_under_hook_name
        (E : Env) (this : value) (c : Call) (w : World) :
  (singleTry c w = true ->
   errorReports (emitted E this c w)
     = match fst (tryBody E c w) with
       | Abrupt e => [(hookName c, e)]
       | Normal _ => []
       end) /\
  exists k,
    errorHooks (emitted E this c w) = repeat (hookName c) k /\
    k <= tryBlocks c w.
Proof.
  split.
  - destruct c; cbn [singleTry tryBody hookName]; intros Hs; try discriminate Hs.
    1-6: open_world w; unfold_hooks; split_paths; new_events;
         cbv beta iota zeta delta [errorReports]; cbn [flat_map app];
         reflexivity.
    apply Nat.eqb_eq in Hs.
    unfold emitted. cbn [invoke]. unfold alert. rewrite Hs. cbn [alertLayers].
    open_world w. unfold_hooks. split_paths; new_events;
      cbv beta iota zeta delta [errorReports]; cbn [flat_map app];
      reflexivity.
  - destruct c; cbn [hookName tryBlocks].
    1-7: open_world w; unfold_hooks; split_paths; new_events; read_events;
         solve [ exists 0; split; [ reflexivity | lia ]
               | exists 1; split; [ reflexivity | lia ] ].
    unfold emitted. cbn [invoke]. unfold alert.
    destruct (alertLayers_errors E (alertHooks w) this message w)
      as (new & k & Ht & He & Hk).
    exists k. rewrite Ht, since_app. auto.
Qed.

(** A campaign win on a page without [window.gameState]: the [TypeError]
    of the first statement is reported under [handleCampaignWin]. *)
Lemma errors_logged_under_hook_name_witness :
  errorReports (emitted samplePage VUndefined CallHandleCampaignWin
                        (freshWorld bareHost))
    = [("handleCampaignWin",
        TypeError "Cannot read properties of undefined (reading 'currentCampaignLevel')")].
Proof.
  destruct (errors_logged_under_hook_name samplePage VUndefined
              CallHandleCampaignWin (freshWorld bareHost)) as (Hexact & _).
  rewrite (Hexact eq_refl). vm_compute. reflexivity.
Defined.

(** ** Task identifiers and level identity of the records *)

Lemma taskIds_none_recordLevels (t : list Event) :
  taskIds t = [] -> recordLevels t = [].
Proof.
  induction t as [|e t IH]; cbn; [ reflexivity | ].
  destruct e as [c | | | | ]; try exact IH.
  destruct c; try exact IH. discriminate.
Qed.

Lemma recordLevels_app (t u : list Event) :
  recordLevels (t ++ u)%list = (recordLevels t ++ recordLevels u)%list.
Proof. unfold recordLevels. apply flat_map_app. Qed.

Section RecordLevels.

Variable E : Env.

Lemma call_recordLevels (this : value) (c : Call) (w : World) :
  isStartCall c = false ->
  Forall (eq (currentLevelId w)) (recordLevels (emitted E this c w)).
Proof.
  destruct c; try discriminate; intros _.
  1-5: open_world w; unfold_hooks; split_paths; new_events;
       cbv beta iota zeta delta [recordLevels]; cbn [flat_map app];
       repeat constructor.
  unfold emitted. cbn [invoke]. unfold alert.
  destruct (alertLayers_frame E (alertHooks w) this message w) as (new & Ht & Hi & _).
  rewrite Ht, since_app, (taskIds_none_recordLevels new Hi). constructor.
Qed.

(** Until the next level start every record carries the level identity
    the run began with. *)
Lemma run_recordLevels (evs : list HostEvent) (w : World) :
  noStart evs = true ->
  Forall (eq (currentLevelId w))
         (recordLevels (since (trace w) (trace (run E evs w)))).
Proof.
  revert w. induction evs as [|ev evs IH]; intros w Hns; cbn [run].
  - rewrite since_self. constructor.
  - cbn in Hns. apply andb_prop in Hns as [Hev Hns].
    specialize (IH (step E ev w) Hns).
    destruct (trace_run E evs (step E ev w)) as (Ht & _).
    remember (since (trace (step E ev w)) (trace (run E evs (step E ev w)))) as rest.
    destruct ev as [this c | f]; cbn [step] in *.
    + apply negb_true_iff in Hev. cbn [isStartEvent] in Hev.
      destruct (other_call_effect E this c w Hev) as (_ & Hl & _).
      rewrite Hl in IH.
      rewrite Ht, (trace_invoke E this c w), <- app_assoc, since_app,
        recordLevels_app.
      apply Forall_app. split; [ apply call_recordLevels, Hev | exact IH ].
    + cbn [trace currentLevelId] in *. rewrite Ht, since_app. exact IH.
Qed.

End RecordLevels.

(** X14. Within one level no two recorded tasks share an identifier:
    the identifiers handed to the sink between two level starts are
    pairwise different, whatever the sink does. *)
Theorem task_ids_distinct_within_level
        (E : Env) (evs : list HostEvent) (w : World) :
  noStart evs = true ->
  NoDup (taskIds (since (trace w) (trace (run E evs w)))).
Proof.
  intros Hns.
  destruct (run_tasks E evs w Hns) as (_ & _ & k & Hids & _).
  rewrite Hids. apply Injective_map_NoDup.
  - intros m n. apply taskId_inj.
  - apply seq_NoDup.
Qed.

Lemma task_ids_distinct_within_level_witness :
  NoDup (taskIds (since (trace (playing cardsAB 7))
                        (trace (run samplePage playL2 (playing cardsAB 7))))).
Proof.
  apply (task_ids_distinct_within_level samplePage playL2 (playing cardsAB 7)).
  reflexivity.
Defined.

(** X15. Every task recorded between a level start and the next one is
    attributed to the level that start named: its [levelId] is
    [campaign_level_<level>] after [startGame(level)] and [reflex_mode]
    after [startReflexMode()], also for matches resolved after a win or
    a timeout. *)
Theorem task_records_carry_started_level
        (E : Env) (this : value) (c : Call) (evs : list HostEvent) (w : World) :
  isStartCall c = true ->
  noStart evs = true ->
  Forall (eq (levelIdOf c))
         (recordLevels (since (trace (snd (invoke E this c w)))
                              (trace (run E evs (snd (invoke E this c w)))))).
Proof.
  intros Hc Hns.
  destruct (start_call_effect E this c w Hc) as (_ & _ & _ & Hl).
  rewrite <- Hl. apply run_recordLevels, Hns.
Qed.

Lemma task_records_carry_started_level_witness :
  Forall (eq (Some "reflex_mode"))
         (recordLevels
            (since (trace (snd (invoke samplePage VUndefined CallStartReflexMode
                                       (playing cardsAB 7))))
                   (trace (run samplePage (winTwice ++ playL2)
                               (snd (invoke samplePage VUndefined CallStartReflexMode
                                            (playing cardsAB 7))))))) /\
  Datatypes.length
    (recordLevels
       (since (trace (snd (invoke samplePage VUndefined CallStartReflexMode
                                  (playing cardsAB 7))))
              (trace (run samplePage (winTwice ++ playL2)
                          (snd (invoke samplePage VUndefined CallStartReflexMode
                                       (playing cardsAB 7))))))) = 2.
Proof.
  split.
  - apply (task_records_carry_started_level samplePage VUndefined
             CallStartReflexMode (winTwice ++ playL2) (playing cardsAB 7));
      reflexivity.
  - vm_compute. reflexivity.
Defined.

(** ** The timeout marker *)

Lemma prefix_append (a b : string) :
  prefix a b = true <-> exists post, b = a ++ post.
Proof.
  revert b. induction a as [|x a IH]; intros b.
  - destruct b; cbn; (split; [ intros _; eexists; reflexivity | reflexivity ]).
  - destruct b as [|y b]; cbn.
    + split; [ discriminate | intros (post & H); discriminate H ].
    + destruct (Ascii.ascii_dec x y) as [-> | Hne].
      * rewrite IH. split; intros (post & H); exists post.
        -- rewrite H. reflexivity.
        -- injection H as H. exact H.
      * split; [ discriminate | intros (post & H) ].
        injection H as H _. congruence.
Qed.

Lemma includes_substring (needle hay : string) :
  includes needle hay = true <-> exists pre post, hay = pre ++ needle ++ post.
Proof.
  induction hay as [|y hay IH]; cbn [includes].
  - rewrite orb_false_r, prefix_append. split.
    + intros (post & H). exists "", post. exact H.
    + intros (pre & post & H). destruct pre; [ exists post; exact H | discriminate H ].
  - rewrite orb_true_iff, prefix_append, IH. split.
    + intros [(post & H) | (pre & post & H)].
      * exists "", post. exact H.
      * exists (String y pre), post. rewrite H. reflexivity.
    + intros (pre & post & H). destruct pre as [|x pre].
      * left. exists post. exact H.
      * right. injection H as _ H. exists pre, post. exact H.
Qed.

(** X16. A notification with a string message is reported to the sink
    as a timeout exactly when the message contains the text [Time's Up]
    somewhere, with this spelling and case: once [window.alert] is
    wrapped, the call [alert(s)] makes an [endLevel] call if and only
    if [s] contains the marker. *)
Theorem timeout_detected_by_substring
        (E : Env) (this : value) (s : string) (w : World) :
  alertHooks w <> 0 ->
  (endLevels (emitted E this (CallAlert (VStr s)) w) <> [] <->
   exists pre post, s = pre ++ "Time's Up" ++ post).
Proof.
  intros Hhooks. rewrite <- includes_substring.
  unfold emitted. cbn [invoke]. unfold alert.
  destruct (alertLayers_endLevels E (alertHooks w) this (VStr s) w)
    as (new & Ht & He & _).
  rewrite Ht, since_app, He. cbn [isTimeoutMessage].
  destruct (includes "Time's Up" s).
  - split; [ reflexivity | intros _ ].
    destruct (alertHooks w) as [|n]; [ congruence | ].
    cbn [seq map]. discriminate.
  - split; [ intros H; destruct (H eq_refl) | discriminate ].
Qed.

Lemma timeout_detected_by_substring_witness :
  (endLevels (emitted samplePage VUndefined (CallAlert (VStr "Oh no! Time's Up!"))
                      (run samplePage twoTimers (playing cardsAB 2))) <> [] <->
   exists pre post, "Oh no! Time's Up!" = pre ++ "Time's Up" ++ post) /\
  endLevels (emitted samplePage VUndefined (CallAlert (VStr "time's up"))
                     (run samplePage twoTimers (playing cardsAB 2))) = [].
Proof.
  split.
  - apply (timeout_detected_by_substring samplePage VUndefined "Oh no! Time's Up!"
             (run samplePage twoTimers (playing cardsAB 2))).
    vm_compute. discriminate.
  - vm_compute. reflexivity.
Defined.

(** ** Loading *)

